(** * Monitor capture through desktop duplication: the capture session

    A shallow embedding of [plugins/win-capture/duplicator-monitor-capture.c]:
    the session record [duplicator_capture], the settings update, the video
    tick with its retry timer, the size queries and the render callback.

    The plugin only talks to the host (libobs graphics, the cursor
    helper) through function calls.  Every such call is logged in a trace
    of [call]s, and the values the host gives back are read from a [host]
    record, so that each theorem quantifies over every possible answer of
    the host. *)

From Stdlib Require Import String DecimalString.
From Stdlib Require Import ZArith List Bool Lia.
From Stdlib Require Import Floats.SpecFloat.
Import ListNotations.

Local Open Scope Z_scope.

(** ** Single-precision floats ([float] in the source)

    IEEE binary32: 24 bits of mantissa, infinities at exponent 128, on the
    Standard Library's specification floats. *)

Module F32.

Definition prec : Z := 24.
Definition emax : Z := 128.

Definition t := spec_float.

(** [a + b], rounding to nearest even. *)
Definition add (a b : t) : t := SFadd prec emax a b.

(** [a >= b]; false as soon as one side is a NaN. *)
Definition ge (a b : t) : bool := SFleb b a.

(** [a < b]; false as soon as one side is a NaN. *)
Definition lt (a b : t) : bool := SFltb a b.

(** Conversion of an integer to [float], as the casts [(float)n] do. *)
Definition of_Z (n : Z) : t := binary_normalize prec emax n 0 false.

(** The literals of the source. *)
Definition zero : t := S754_zero false.                       (* 0.0f *)
Definition one : t := S754_finite false 8388608 (-23).        (* 1.0f *)
Definition three : t := S754_finite false 12582912 (-22).     (* 3.0f *)

(** The integer a float stands for, when it stands for one. *)
Definition to_Z (f : t) : option Z :=
  match f with
  | S754_zero _ => Some 0
  | S754_finite s m e =>
      if 0 <=? e then Some (cond_Zopp s (Zpos m * 2 ^ e))
      else if Zpos m mod 2 ^ (- e) =? 0
           then Some (cond_Zopp s (Zpos m / 2 ^ (- e)))
           else None
  | _ => None
  end.

End F32.

Definition float32 : Type := F32.t.

(** ** Integer conversions *)

(** [(int)v] for a [long long] v: wrap-around to 32 bits, two's complement. *)
Definition int_of_long_long (v : Z) : Z :=
  (v + 2 ^ 31) mod 2 ^ 32 - 2 ^ 31.

(** [long] on the plugin's target.  The file is built for Windows only
    (it includes [windows.h]), where [long] has 32 bits. *)
Definition LONG_BITS : Z := 32.
Definition LONG_MIN : Z := - 2 ^ (LONG_BITS - 1).
Definition LONG_MAX : Z := 2 ^ (LONG_BITS - 1) - 1.

(** Conversion to [long]: values that do not fit wrap around, two's
    complement.  This is what passing a [uint32_t] for a [long] parameter
    does on the target. *)
Definition to_long (v : Z) : Z :=
  (v + 2 ^ (LONG_BITS - 1)) mod 2 ^ LONG_BITS - 2 ^ (LONG_BITS - 1).

(** [-v] on a [long].  At [LONG_MIN] the result does not fit: C leaves it
    undefined, and the target's negation gives [LONG_MIN] back. *)
Definition long_neg (v : Z) : Z := to_long (- v).

(** [a % b] of C on [int]: the remainder has the sign of [a]. *)
Definition c_rem (a b : Z) : Z := Z.rem a b.

(** ** Opaque host objects

    Pointers to host objects are handles; a pointer that may be [NULL] is an
    [option]. *)

Definition obs_source := N.
Definition gs_duplicator := N.
Definition gs_texture := N.
Definition gs_effect := N.

(** [struct cursor_data] belongs to the cursor helper; the plugin never
    looks inside it. *)
Definition cursor_data := N.

(** The settings object, read through its two getters. *)
Record obs_data := {
  obs_data_get_int : string -> Z;
  obs_data_get_bool : string -> bool
}.

(** [struct gs_monitor_info], filled by the host. *)
Record gs_monitor_info := {
  rotation_degrees : Z;
  mi_x : Z;
  mi_y : Z;
  mi_cx : Z;
  mi_cy : Z
}.

(** [struct gs_monitor_info monitor_info = {0};] *)
Definition monitor_info_zero : gs_monitor_info :=
  {| rotation_degrees := 0; mi_x := 0; mi_y := 0; mi_cx := 0; mi_cy := 0 |}.

(** ** The session *)

Record duplicator_capture := {
  source : option obs_source;
  monitor : Z;
  capture_cursor : bool;
  x : Z;
  y : Z;
  rot : Z;
  width : Z;
  height : Z;
  duplicator : option gs_duplicator;
  reset_timeout : float32;
  cursor : cursor_data
}.

Definition set_source v (c : duplicator_capture) :=
  {| source := v; monitor := monitor c; capture_cursor := capture_cursor c;
     x := x c; y := y c; rot := rot c; width := width c; height := height c;
     duplicator := duplicator c; reset_timeout := reset_timeout c;
     cursor := cursor c |}.

Definition set_monitor v (c : duplicator_capture) :=
  {| source := source c; monitor := v; capture_cursor := capture_cursor c;
     x := x c; y := y c; rot := rot c; width := width c; height := height c;
     duplicator := duplicator c; reset_timeout := reset_timeout c;
     cursor := cursor c |}.

Definition set_capture_cursor v (c : duplicator_capture) :=
  {| source := source c; monitor := monitor c; capture_cursor := v;
     x := x c; y := y c; rot := rot c; width := width c; height := height c;
     duplicator := duplicator c; reset_timeout := reset_timeout c;
     cursor := cursor c |}.

Definition set_x v (c : duplicator_capture) :=
  {| source := source c; monitor := monitor c;
     capture_cursor := capture_cursor c;
     x := v; y := y c; rot := rot c; width := width c; height := height c;
     duplicator := duplicator c; reset_timeout := reset_timeout c;
     cursor := cursor c |}.

Definition set_y v (c : duplicator_capture) :=
  {| source := source c; monitor := monitor c;
     capture_cursor := capture_cursor c;
     x := x c; y := v; rot := rot c; width := width c; height := height c;
     duplicator := duplicator c; reset_timeout := reset_timeout c;
     cursor := cursor c |}.

Definition set_rot v (c : duplicator_capture) :=
  {| source := source c; monitor := monitor c;
     capture_cursor := capture_cursor c;
     x := x c; y := y c; rot := v; width := width c; height := height c;
     duplicator := duplicator c; reset_timeout := reset_timeout c;
     cursor := cursor c |}.

Definition set_width v (c : duplicator_capture) :=
  {| source := source c; monitor := monitor c;
     capture_cursor := capture_cursor c;
     x := x c; y := y c; rot := rot c; width := v; height := height c;
     duplicator := duplicator c; reset_timeout := reset_timeout c;
     cursor := cursor c |}.

Definition set_height v (c : duplicator_capture) :=
  {| source := source c; monitor := monitor c;
     capture_cursor := capture_cursor c;
     x := x c; y := y c; rot := rot c; width := width c; height := v;
     duplicator := duplicator c; reset_timeout := reset_timeout c;
     cursor := cursor c |}.

Definition set_duplicator v (c : duplicator_capture) :=
  {| source := source c; monitor := monitor c;
     capture_cursor := capture_cursor c;
     x := x c; y := y c; rot := rot c; width := width c; height := height c;
     duplicator := v; reset_timeout := reset_timeout c;
     cursor := cursor c |}.

Definition set_reset_timeout v (c : duplicator_capture) :=
  {| source := source c; monitor := monitor c;
     capture_cursor := capture_cursor c;
     x := x c; y := y c; rot := rot c; width := width c; height := height c;
     duplicator := duplicator c; reset_timeout := v;
     cursor := cursor c |}.

Definition set_cursor v (c : duplicator_capture) :=
  {| source := source c; monitor := monitor c;
     capture_cursor := capture_cursor c;
     x := x c; y := y c; rot := rot c; width := width c; height := height c;
     duplicator := duplicator c; reset_timeout := reset_timeout c;
     cursor := v |}.

(** What [bzalloc] hands back: every byte zero. *)
Definition bzalloc_capture : duplicator_capture :=
  {| source := None; monitor := 0; capture_cursor := false;
     x := 0; y := 0; rot := 0; width := 0; height := 0;
     duplicator := None; reset_timeout := F32.zero; cursor := 0%N |}.

(** [#define RESET_INTERVAL_SEC 3.0f] *)
Definition RESET_INTERVAL_SEC : float32 := F32.three.

(** ** Calls into the host

    A local variable of the source that may be read before it was ever
    written holds [Uninit]. *)

Inductive local (A : Type) :=
| Uninit
| Init (a : A).
Arguments Uninit {A}.
Arguments Init {A} a.

(** [RAD(val)] is a macro of the host's math header: degrees to radians.
    The angle passed on is kept as the macro applied to its argument. *)
Inductive angle :=
| RAD (val : float32).

Inductive call :=
| call_obs_data_get_int (name : string)
| call_obs_data_get_bool (name : string)
| call_obs_source_showing (src : option obs_source)
| call_obs_enter_graphics
| call_obs_leave_graphics
| call_gs_duplicator_destroy (d : option gs_duplicator)
| call_gs_duplicator_create (monitor_idx : Z)
| call_gs_duplicator_update_frame (d : gs_duplicator)
| call_gs_duplicator_get_texture (d : option gs_duplicator)
| call_gs_get_duplicator_monitor_info (monitor_idx : Z)
| call_gs_texture_get_width (tex : option gs_texture)
| call_gs_texture_get_height (tex : option gs_texture)
| call_cursor_capture
| call_cursor_draw (x_offset y_offset : Z) (x_scale y_scale : float32)
                   (w h : Z)
| call_obs_get_default_effect
| call_gs_effect_loop (name : string)
| call_gs_enable_blending (enable : bool)
| call_gs_enable_color (r g b a : bool)
| call_gs_matrix_push
| call_gs_matrix_translate3f (tx ty tz : local float32)
| call_gs_matrix_rotaa4f (ax ay az : float32) (a : angle)
| call_obs_source_draw (tex : gs_texture) (px py cx cy : Z) (flip : bool)
| call_gs_matrix_pop.

(** What the host answers during one callback.  [gs_effect_loop_passes] is
    the number of times [gs_effect_loop] returns true before it returns
    false. *)
Record host := {
  obs_source_showing : option obs_source -> bool;
  gs_duplicator_create : Z -> option gs_duplicator;
  gs_duplicator_update_frame : gs_duplicator -> bool;
  gs_duplicator_get_texture : option gs_duplicator -> option gs_texture;
  gs_texture_get_width : option gs_texture -> Z;
  gs_texture_get_height : option gs_texture -> Z;
  gs_get_duplicator_monitor_info :
    Z -> gs_monitor_info -> bool * gs_monitor_info;
  cursor_capture : cursor_data -> cursor_data;
  obs_get_default_effect : gs_effect;
  gs_effect_loop_passes : nat
}.

(** ** The monad of the callbacks: session state and call trace *)

Definition M (A : Type) : Type :=
  duplicator_capture -> A * duplicator_capture * list call.

Definition ret {A} (a : A) : M A := fun c => (a, c, []).

Definition bind {A B} (m : M A) (k : A -> M B) : M B :=
  fun c =>
    let '(a, c1, t1) := m c in
    let '(b, c2, t2) := k a c1 in
    (b, c2, t1 ++ t2).

Definition get : M duplicator_capture := fun c => (c, c, []).

Definition modify (f : duplicator_capture -> duplicator_capture) : M unit :=
  fun c => (tt, f c, []).

(** A host call: logged, and answered with [r]. *)
Definition extern {A} (e : call) (r : A) : M A := fun c => (r, c, [e]).

Definition when (b : bool) (m : M unit) : M unit :=
  if b then m else ret tt.

Notation "v <- m ;; k" := (bind m (fun v => k))
  (at level 61, m at next level, right associativity).
Notation "m ;; k" := (bind m (fun _ => k))
  (at level 61, right associativity).

Definition state_of {A} (r : A * duplicator_capture * list call) :=
  snd (fst r).
Definition trace_of {A} (r : A * duplicator_capture * list call) :=
  snd r.

(** ** The source, function by function *)

Definition update_settings (settings : obs_data) (h : host) : M unit :=
  m <- extern (call_obs_data_get_int "monitor")
         (obs_data_get_int settings "monitor") ;;
  modify (set_monitor (int_of_long_long m)) ;;
  b <- extern (call_obs_data_get_bool "capture_cursor")
         (obs_data_get_bool settings "capture_cursor") ;;
  modify (set_capture_cursor b) ;;
  extern call_obs_enter_graphics tt ;;
  c <- get ;;
  extern (call_gs_duplicator_destroy (duplicator c)) tt ;;
  d <- extern (call_gs_duplicator_create (monitor c))
         (gs_duplicator_create h (monitor c)) ;;
  modify (set_duplicator d) ;;
  modify (set_width 0) ;;
  modify (set_height 0) ;;
  modify (set_x 0) ;;
  modify (set_y 0) ;;
  modify (set_rot 0) ;;
  modify (set_reset_timeout F32.zero) ;;
  extern call_obs_leave_graphics tt.

Definition duplicator_capture_update (settings : obs_data) (h : host)
  : M unit :=
  update_settings settings h.

(** The new session is the result; the callback starts from zeroed memory. *)
Definition duplicator_capture_create (settings : obs_data)
    (src : option obs_source) (h : host)
  : duplicator_capture * list call :=
  let r := (modify (set_source src) ;; update_settings settings h)
             bzalloc_capture in
  (state_of r, trace_of r).

Definition reset_capture_data (h : host) : M unit :=
  c <- get ;;
  texture <- extern (call_gs_duplicator_get_texture (duplicator c))
               (gs_duplicator_get_texture h (duplicator c)) ;;
  monitor_info <- extern (call_gs_get_duplicator_monitor_info (monitor c))
                    (snd (gs_get_duplicator_monitor_info h (monitor c)
                            monitor_info_zero)) ;;
  w <- extern (call_gs_texture_get_width texture)
         (gs_texture_get_width h texture) ;;
  modify (set_width w) ;;
  ht <- extern (call_gs_texture_get_height texture)
          (gs_texture_get_height h texture) ;;
  modify (set_height ht) ;;
  modify (set_x (mi_x monitor_info)) ;;
  modify (set_y (mi_y monitor_info)) ;;
  modify (set_rot (rotation_degrees monitor_info)).

Definition duplicator_capture_tick (h : host) (seconds : float32) : M unit :=
  c <- get ;;
  showing <- extern (call_obs_source_showing (source c))
               (obs_source_showing h (source c)) ;;
  if negb showing then ret tt
  else
    extern call_obs_enter_graphics tt ;;
    c <- get ;;
    match duplicator c with
    | None =>
        modify (set_reset_timeout (F32.add (reset_timeout c) seconds)) ;;
        c <- get ;;
        when (F32.ge (reset_timeout c) RESET_INTERVAL_SEC)
          (d <- extern (call_gs_duplicator_create (monitor c))
                  (gs_duplicator_create h (monitor c)) ;;
           modify (set_duplicator d) ;;
           modify (set_reset_timeout F32.zero))
    | Some _ => ret tt
    end ;;
    c <- get ;;
    match duplicator c with
    | Some d =>
        when (capture_cursor c)
          (extern call_cursor_capture tt ;;
           modify (set_cursor (cursor_capture h (cursor c)))) ;;
        ok <- extern (call_gs_duplicator_update_frame d)
                (gs_duplicator_update_frame h d) ;;
        if negb ok then
          extern (call_gs_duplicator_destroy (Some d)) tt ;;
          modify (set_duplicator None) ;;
          modify (set_width 0) ;;
          modify (set_height 0) ;;
          modify (set_x 0) ;;
          modify (set_y 0) ;;
          modify (set_rot 0) ;;
          modify (set_reset_timeout F32.zero)
        else
          c <- get ;;
          when (width c =? 0) (reset_capture_data h)
    | None => ret tt
    end ;;
    extern call_obs_leave_graphics tt.

Definition duplicator_capture_width (c : duplicator_capture) : Z :=
  if c_rem (rot c) 180 =? 0 then width c else height c.

Definition duplicator_capture_height (c : duplicator_capture) : Z :=
  if c_rem (rot c) 180 =? 0 then height c else width c.

(** [cursor_draw] takes its offsets and its clip size as [long]: the
    offsets are negated as [long], and the [uint32_t] sizes are converted
    to [long] as they are passed. *)
Definition draw_cursor : M unit :=
  c <- get ;;
  extern (call_cursor_draw (long_neg (x c)) (long_neg (y c))
            F32.one F32.one
            (to_long (if c_rem (rot c) 180 =? 0 then width c else height c))
            (to_long (if c_rem (rot c) 180 =? 0 then height c else width c)))
    tt.

(** The [switch (rot)] of the render callback: it has no [default], so the
    two locals [x] and [y] stay unwritten for every other value. *)
Definition render_translation (c : duplicator_capture) (r : Z)
  : local float32 * local float32 :=
  if r =? 90 then (Init (F32.of_Z (height c)), Init F32.zero)
  else if r =? 180 then (Init (F32.of_Z (width c)), Init (F32.of_Z (height c)))
  else if r =? 270 then (Init F32.zero, Init (F32.of_Z (width c)))
  else (Uninit, Uninit).

(** The body of the [while (gs_effect_loop(effect, "Draw"))] loop. *)
Definition render_pass (texture : gs_texture) (r : Z) : M unit :=
  extern (call_gs_enable_blending false) tt ;;
  extern (call_gs_enable_color true true true false) tt ;;
  when (negb (r =? 0))
    (c <- get ;;
     let '(tx, ty) := render_translation c r in
     extern call_gs_matrix_push tt ;;
     extern (call_gs_matrix_translate3f tx ty (Init F32.zero)) tt ;;
     extern (call_gs_matrix_rotaa4f F32.zero F32.zero F32.one
               (RAD (F32.of_Z r))) tt) ;;
  extern (call_obs_source_draw texture 0 0 0 0 false) tt ;;
  when (negb (r =? 0)) (extern call_gs_matrix_pop tt) ;;
  extern (call_gs_enable_blending true) tt ;;
  extern (call_gs_enable_color true true true true) tt ;;
  c <- get ;;
  when (capture_cursor c) draw_cursor.

(** [while (gs_effect_loop(effect, "Draw")) body]: the host decides how many
    passes there are. *)
Fixpoint effect_loop (passes : nat) (body : M unit) : M unit :=
  match passes with
  | O => extern (call_gs_effect_loop "Draw") tt
  | S n =>
      extern (call_gs_effect_loop "Draw") tt ;;
      body ;;
      effect_loop n body
  end.

Definition duplicator_capture_render (h : host) : M unit :=
  c <- get ;;
  match duplicator c with
  | None => ret tt
  | Some _ =>
      texture <- extern (call_gs_duplicator_get_texture (duplicator c))
                   (gs_duplicator_get_texture h (duplicator c)) ;;
      match texture with
      | None => ret tt
      | Some tex =>
          extern call_obs_get_default_effect (obs_get_default_effect h) ;;
          let r := rot c in
          effect_loop (gs_effect_loop_passes h) (render_pass tex r)
      end
  end.

(** ** The three states of a session *)

Definition Unbound (c : duplicator_capture) : Prop := duplicator c = None.

Definition Bound (c : duplicator_capture) : Prop := duplicator c <> None.

Definition Bound_Unsized (c : duplicator_capture) : Prop :=
  duplicator c <> None /\ width c = 0.

Definition Bound_Sized (c : duplicator_capture) : Prop :=
  duplicator c <> None /\ width c <> 0.

(** ** Runs of ticks *)

(** One tick per input; for each tick, its trace and the session it leaves. *)
Fixpoint run_ticks (c : duplicator_capture) (inputs : list (host * float32))
  : list (list call * duplicator_capture) :=
  match inputs with
  | [] => []
  | (h, seconds) :: rest =>
      let r := duplicator_capture_tick h seconds c in
      (trace_of r, state_of r) :: run_ticks (state_of r) rest
  end.

(** The sessions the host can ever hold: made by the create callback, then
    passed to the update, tick and render callbacks in any order. *)
Inductive reachable : duplicator_capture -> Prop :=
| reach_create settings src h :
    reachable (fst (duplicator_capture_create settings src h))
| reach_update c settings h :
    reachable c ->
    reachable (state_of (duplicator_capture_update settings h c))
| reach_tick c h seconds :
    reachable c ->
    reachable (state_of (duplicator_capture_tick h seconds c))
| reach_render c h :
    reachable c ->
    reachable (state_of (duplicator_capture_render h c)).

(** ** Classifying calls *)

Definition is_duplication_api (e : call) : bool :=
  match e with
  | call_gs_duplicator_destroy _ | call_gs_duplicator_create _
  | call_gs_duplicator_update_frame _ | call_gs_duplicator_get_texture _
  | call_gs_get_duplicator_monitor_info _ => true
  | _ => false
  end.

Definition is_cursor_overlay (e : call) : bool :=
  match e with
  | call_cursor_capture | call_cursor_draw _ _ _ _ _ _ => true
  | _ => false
  end.

Definition is_create (e : call) : bool :=
  match e with
  | call_gs_duplicator_create _ => true
  | _ => false
  end.

Definition is_monitor_info_query (e : call) : bool :=
  match e with
  | call_gs_get_duplicator_monitor_info _ => true
  | _ => false
  end.

Definition is_matrix_call (e : call) : bool :=
  match e with
  | call_gs_matrix_push | call_gs_matrix_translate3f _ _ _
  | call_gs_matrix_rotaa4f _ _ _ _ | call_gs_matrix_pop => true
  | _ => false
  end.

(** * Closed forms and vocabulary

    What each branch of the callbacks does to the session and which calls
    it makes, written out once so that the properties can name them. *)

(** What the failure branch of the tick writes into the session. *)
Definition cold_restart (c : duplicator_capture) : duplicator_capture :=
  set_reset_timeout F32.zero
    (set_rot 0 (set_y 0 (set_x 0 (set_height 0 (set_width 0
       (set_duplicator None c)))))).

(** The session after [cursor_capture], when the cursor is captured. *)
Definition sample_cursor (h : host) (c : duplicator_capture)
  : duplicator_capture :=
  if capture_cursor c then set_cursor (cursor_capture h (cursor c)) c else c.

(** The cursor sampling of a tick, as calls. *)
Definition cursor_calls (c : duplicator_capture) : list call :=
  if capture_cursor c then [call_cursor_capture] else [].

(** What [reset_capture_data] writes into the session. *)
Definition refresh_geometry (h : host) (c : duplicator_capture)
  : duplicator_capture :=
  let texture := gs_duplicator_get_texture h (duplicator c) in
  let info := snd (gs_get_duplicator_monitor_info h (monitor c)
                     monitor_info_zero) in
  set_rot (rotation_degrees info)
    (set_y (mi_y info)
       (set_x (mi_x info)
          (set_height (gs_texture_get_height h texture)
             (set_width (gs_texture_get_width h texture) c)))).

(** The four calls of [reset_capture_data]. *)
Definition geometry_calls (h : host) (c : duplicator_capture) : list call :=
  let texture := gs_duplicator_get_texture h (duplicator c) in
  [call_gs_duplicator_get_texture (duplicator c);
   call_gs_get_duplicator_monitor_info (monitor c);
   call_gs_texture_get_width texture;
   call_gs_texture_get_height texture].

(** The session right after a creation attempt that answered [d]. *)
Definition after_create (d : option gs_duplicator) (c : duplicator_capture)
  : duplicator_capture :=
  set_reset_timeout F32.zero (set_duplicator d c).

(** The pair the width and height callbacks return. *)
Definition effective_dimensions (c : duplicator_capture) : Z * Z :=
  (duplicator_capture_width c, duplicator_capture_height c).

(** The session whose raw size is the effective size of [c]. *)
Definition with_effective_dimensions (c : duplicator_capture)
  : duplicator_capture :=
  set_height (duplicator_capture_height c)
    (set_width (duplicator_capture_width c) c).

(** A host under which the source shows and the duplicator of the session's
    monitor cannot be created. *)
Definition visible_failing (c : duplicator_capture) (h : host) : Prop :=
  obs_source_showing h (source c) = true
  /\ gs_duplicator_create h (monitor c) = None.

(** The timer after [n] whole seconds without an attempt. *)
Definition whole_seconds (n : nat) : float32 := F32.of_Z (Z.of_nat n).

(** The call of [draw_cursor], when the cursor is captured. *)
Definition cursor_draw_calls (c : duplicator_capture) : list call :=
  if capture_cursor c
  then [call_cursor_draw (long_neg (x c)) (long_neg (y c)) F32.one F32.one
          (to_long (duplicator_capture_width c))
          (to_long (duplicator_capture_height c))]
  else [].

(** One pass of the draw loop, around the calls that set the transform up
    and the calls that undo it. *)
Definition pass_calls (tex : gs_texture) (c : duplicator_capture)
    (transform restore : list call) : list call :=
  [call_gs_enable_blending false; call_gs_enable_color true true true false]
    ++ transform
    ++ [call_obs_source_draw tex 0 0 0 0 false]
    ++ restore
    ++ [call_gs_enable_blending true; call_gs_enable_color true true true true]
    ++ cursor_draw_calls c.

(** A whole render of a bound session that has a texture. *)
Definition render_calls (h : host) (tex : gs_texture)
    (c : duplicator_capture) (transform restore : list call) : list call :=
  [call_gs_duplicator_get_texture (duplicator c); call_obs_get_default_effect]
    ++ concat (repeat (call_gs_effect_loop "Draw"
                         :: pass_calls tex c transform restore)
                 (gs_effect_loop_passes h))
    ++ [call_gs_effect_loop "Draw"].

(** The calls the source makes under [if (rot != 0)], before and after the
    draw. *)
Definition transform_calls (c : duplicator_capture) (r : Z) : list call :=
  if r =? 0 then []
  else [call_gs_matrix_push;
        call_gs_matrix_translate3f (fst (render_translation c r))
          (snd (render_translation c r)) (Init F32.zero);
        call_gs_matrix_rotaa4f F32.zero F32.zero F32.one (RAD (F32.of_Z r))].

(** The call the source makes under the second [if (rot != 0)]. *)
Definition restore_calls (r : Z) : list call :=
  if r =? 0 then [] else [call_gs_matrix_pop].

(** The invariant: no duplicator, no size. *)
Definition unbound_is_unsized (c : duplicator_capture) : Prop :=
  duplicator c = None -> width c = 0 /\ height c = 0.

(** The monitor info the host reports for the session's monitor. *)
Definition reported_info (h : host) (c : duplicator_capture)
  : gs_monitor_info :=
  snd (gs_get_duplicator_monitor_info h (monitor c) monitor_info_zero).

(** The texture the host reports for duplicator [d]. *)
Definition reported_texture (h : host) (d : gs_duplicator)
  : option gs_texture :=
  gs_duplicator_get_texture h (Some d).

Definition is_update_frame (e : call) : bool :=
  match e with
  | call_gs_duplicator_update_frame _ => true
  | _ => false
  end.

(** The three steps of an acquisition: creation, frame update and
    monitor-info query. *)
Definition is_acquisition_step (e : call) : bool :=
  is_create e || is_update_frame e || is_monitor_info_query e.

(** The three matrix calls of a rotated draw. *)
Definition rotated (tx ty : local float32) (degrees : Z) : list call :=
  [call_gs_matrix_push;
   call_gs_matrix_translate3f tx ty (Init F32.zero);
   call_gs_matrix_rotaa4f F32.zero F32.zero F32.one
     (RAD (F32.of_Z degrees))].

(** * Concrete hosts and sessions *)

(** The default settings: monitor 0, cursor captured. *)
Definition settings_default : obs_data :=
  {| obs_data_get_int := fun _ => 0; obs_data_get_bool := fun _ => true |}.

(** A host that shows the source, answers creations with [created], lets
    every frame update succeed, and reports texture [tex] of raw size
    [w] x [ht] on a monitor described by [info]; one pass per draw. *)
Definition monitor_host (created : option gs_duplicator)
    (tex : option gs_texture) (w ht : Z) (info : gs_monitor_info) : host :=
  {| obs_source_showing := fun _ => true;
     gs_duplicator_create := fun _ => created;
     gs_duplicator_update_frame := fun _ => true;
     gs_duplicator_get_texture := fun _ => tex;
     gs_texture_get_width := fun _ => w;
     gs_texture_get_height := fun _ => ht;
     gs_get_duplicator_monitor_info := fun _ _ => (true, info);
     cursor_capture := fun cd => cd;
     obs_get_default_effect := 1%N;
     gs_effect_loop_passes := 1 |}.

(** A 1920 x 1080 monitor at the origin of the desktop. *)
Definition monitor_at (rotation : Z) : gs_monitor_info :=
  {| rotation_degrees := rotation; mi_x := 0; mi_y := 0;
     mi_cx := 1920; mi_cy := 1080 |}.

(** The monitor is away: no duplicator can be created. *)
Definition host_no_monitor : host :=
  monitor_host None None 0 0 monitor_info_zero.

(** The duplicator exists but has not produced a frame yet: the frame
    update succeeds, there is no texture, and the width of no texture
    is 0. *)
Definition host_no_frame : host :=
  monitor_host (Some 1%N) None 0 0 (monitor_at 0).

(** A landscape monitor, and the same monitor turned by 90 degrees. *)
Definition host_landscape : host :=
  monitor_host (Some 1%N) (Some 2%N) 1920 1080 (monitor_at 0).
Definition host_portrait : host :=
  monitor_host (Some 1%N) (Some 2%N) 1080 1920 (monitor_at 90).

(** A host whose monitor info carries a rotation of 45 degrees. *)
Definition host_skewed : host :=
  monitor_host (Some 1%N) (Some 2%N) 1920 1080 (monitor_at 45).

(** The source is hidden. *)
Definition host_hidden : host :=
  {| obs_source_showing := fun _ => false;
     gs_duplicator_create := fun _ => Some 1%N;
     gs_duplicator_update_frame := fun _ => true;
     gs_duplicator_get_texture := fun _ => Some 2%N;
     gs_texture_get_width := fun _ => 1920;
     gs_texture_get_height := fun _ => 1080;
     gs_get_duplicator_monitor_info := fun _ _ => (true, monitor_at 0);
     cursor_capture := fun cd => cd;
     obs_get_default_effect := 1%N;
     gs_effect_loop_passes := 1 |}.

(** The device is lost: frame updates fail. *)
Definition host_device_lost : host :=
  {| obs_source_showing := fun _ => true;
     gs_duplicator_create := fun _ => None;
     gs_duplicator_update_frame := fun _ => false;
     gs_duplicator_get_texture := fun _ => None;
     gs_texture_get_width := fun _ => 0;
     gs_texture_get_height := fun _ => 0;
     gs_get_duplicator_monitor_info := fun _ _ => (false, monitor_info_zero);
     cursor_capture := fun cd => cd;
     obs_get_default_effect := 1%N;
     gs_effect_loop_passes := 1 |}.

(** Sessions: created while the monitor was away; created with a
    duplicator; then ticked once on each kind of monitor. *)
Definition session_unbound : duplicator_capture :=
  fst (duplicator_capture_create settings_default (Some 1%N) host_no_monitor).

Definition session_bound : duplicator_capture :=
  fst (duplicator_capture_create settings_default (Some 1%N) host_no_frame).

Definition session_portrait : duplicator_capture :=
  state_of (duplicator_capture_tick host_portrait F32.one session_bound).

Definition session_skewed : duplicator_capture :=
  state_of (duplicator_capture_tick host_skewed F32.one session_bound).

(** * The rest of the plugin

    The callbacks around the session: name, defaults, destruction and the
    property sheet with its enumeration of monitors. *)

(** The two constants of the host's combo-box enumerations the plugin
    uses. *)
Inductive obs_combo_type :=
| OBS_COMBO_TYPE_LIST.

Inductive obs_combo_format :=
| OBS_COMBO_FORMAT_INT.

(** The calls of these callbacks: the session's calls and the ones of the
    settings, property and cursor interfaces. *)
Inductive host_call :=
| session_call (e : call)
| call_cursor_data_free
| call_obs_module_text (key : string)
| call_obs_data_set_default_int (name : string) (val : Z)
| call_obs_data_set_default_bool (name : string) (val : bool)
| call_obs_properties_create
| call_obs_properties_add_list (name desc : string) (type : obs_combo_type)
                               (format : obs_combo_format)
| call_obs_properties_add_bool (name desc : string)
| call_obs_property_list_add_int (name : string) (val : Z).

(** The session calls among them, in order. *)
Definition session_calls (tr : list host_call) : list call :=
  flat_map (fun e => match e with session_call e' => [e'] | _ => [] end) tr.


(** [duplicator_capture_getname]; [text] is the host's [obs_module_text]. *)
Definition duplicator_capture_getname (text : string -> string)
  : string * list host_call :=
  (text "MonitorCapture"%string, [call_obs_module_text "MonitorCapture"]).

(** [duplicator_capture_destroy]: the session is freed, only the calls
    remain. *)
Definition duplicator_capture_destroy (c : duplicator_capture)
  : list host_call :=
  [session_call call_obs_enter_graphics;
   session_call (call_gs_duplicator_destroy (duplicator c));
   call_cursor_data_free;
   session_call call_obs_leave_graphics].

Definition duplicator_capture_defaults : list host_call :=
  [call_obs_data_set_default_int "monitor" 0;
   call_obs_data_set_default_bool "capture_cursor" true].






(** ** Lives of a session *)

(** The callbacks the host may run on a live session. *)
Inductive callback :=
| cb_update (settings : obs_data) (h : host)
| cb_tick (h : host) (seconds : float32)
| cb_render (h : host).

Definition run_callback (cb : callback) : M unit :=
  match cb with
  | cb_update settings h => duplicator_capture_update settings h
  | cb_tick h seconds => duplicator_capture_tick h seconds
  | cb_render h => duplicator_capture_render h
  end.

Definition callback_host (cb : callback) : host :=
  match cb with
  | cb_update _ h | cb_tick h _ | cb_render h => h
  end.

(** ** Duplicators created and destroyed *)

Inductive handle_event :=
| Created (d : gs_duplicator)
| Destroyed (d : gs_duplicator).

(** What a trace does to duplicators, given the host that answered it:
    a creation that fails and a destruction of [NULL] do nothing. *)
Definition handle_events (h : host) (tr : list call) : list handle_event :=
  flat_map
    (fun e =>
       match e with
       | call_gs_duplicator_create m =>
           match gs_duplicator_create h m with
           | Some d => [Created d]
           | None => []
           end
       | call_gs_duplicator_destroy (Some d) => [Destroyed d]
       | _ => []
       end) tr.

(** Follow the one duplicator that may be alive: [None] as soon as one is
    created while another is alive, or one is destroyed that is not the
    one alive. *)
Fixpoint track (alive : option gs_duplicator) (evs : list handle_event)
  : option (option gs_duplicator) :=
  match evs with
  | [] => Some alive
  | Created d :: rest =>
      match alive with
      | None => track (Some d) rest
      | Some _ => None
      end
  | Destroyed d :: rest =>
      match alive with
      | Some d' => if N.eqb d d' then track None rest else None
      | None => None
      end
  end.

(** The duplicator events of a run of callbacks, and the session it
    leaves. *)
Fixpoint run_callbacks (c : duplicator_capture) (cbs : list callback)
  : list handle_event * duplicator_capture :=
  match cbs with
  | [] => ([], c)
  | cb :: rest =>
      let r := run_callback cb c in
      let '(evs, c') := run_callbacks (state_of r) rest in
      (handle_events (callback_host cb) (trace_of r) ++ evs, c')
  end.

(** A whole life: creation, callbacks, destruction. *)
Definition lifetime_handle_events (settings : obs_data)
    (src : option obs_source) (h : host) (cbs : list callback)
  : list handle_event :=
  let '(c0, tr0) := duplicator_capture_create settings src h in
  let '(evs, c) := run_callbacks c0 cbs in
  handle_events h tr0 ++ evs
    ++ handle_events h (session_calls (duplicator_capture_destroy c)).

(** ** Graphics context *)


(** Where a callback stands with the graphics context: not entered yet,
    inside, or left again. *)
Inductive graphics_phase :=
| Before
| Inside
| After.

(** Follow a trace through the phases: [None] when the context is entered
    anywhere but at [Before] (so a second time as well), left anywhere but
    [Inside], or a duplication call is made anywhere but [Inside]. *)
Fixpoint graphics_run (p : graphics_phase) (tr : list call)
  : option graphics_phase :=
  match tr with
  | [] => Some p
  | call_obs_enter_graphics :: rest =>
      match p with
      | Before => graphics_run Inside rest
      | _ => None
      end
  | call_obs_leave_graphics :: rest =>
      match p with
      | Inside => graphics_run After rest
      | _ => None
      end
  | e :: rest =>
      match p with
      | Inside => graphics_run Inside rest
      | _ => if is_duplication_api e then None else graphics_run p rest
      end
  end.

(** ** Draw state *)

(** Follow the matrix stack: [None] when it is popped while empty. *)
Fixpoint matrix_depth (depth : nat) (tr : list call) : option nat :=
  match tr with
  | [] => Some depth
  | call_gs_matrix_push :: rest => matrix_depth (S depth) rest
  | call_gs_matrix_pop :: rest =>
      match depth with
      | O => None
      | S d => matrix_depth d rest
      end
  | _ :: rest => matrix_depth depth rest
  end.

(** Blending, and the colour mask as (red, green, blue, alpha). *)
Record draw_state := {
  blending : bool;
  color_mask : bool * bool * bool * bool
}.

(** Blending off, colour written, alpha not written. *)
Definition opaque_state (st : draw_state) : bool :=
  negb (blending st)
  && match color_mask st with
     | (true, true, true, false) => true
     | _ => false
     end.

(** Blending on, all four channels written. *)
Definition blended_state (st : draw_state) : bool :=
  blending st
  && match color_mask st with
     | (true, true, true, true) => true
     | _ => false
     end.

(** Follow blending and colour mask: [None] when the texture is drawn in
    any state but the opaque one, or the cursor in any state but the
    blended one. *)
Fixpoint draw_policy (st : draw_state) (tr : list call)
  : option draw_state :=
  match tr with
  | [] => Some st
  | call_gs_enable_blending b :: rest =>
      draw_policy {| blending := b; color_mask := color_mask st |} rest
  | call_gs_enable_color r g b a :: rest =>
      draw_policy {| blending := blending st; color_mask := (r, g, b, a) |}
        rest
  | call_obs_source_draw _ _ _ _ _ _ :: rest =>
      if opaque_state st then draw_policy st rest else None
  | call_cursor_draw _ _ _ _ _ _ :: rest =>
      if blended_state st then draw_policy st rest else None
  | _ :: rest => draw_policy st rest
  end.

Definition is_texture_draw (e : call) : bool :=
  match e with
  | call_obs_source_draw _ _ _ _ _ _ => true
  | _ => false
  end.

Definition is_cursor_draw (e : call) : bool :=
  match e with
  | call_cursor_draw _ _ _ _ _ _ => true
  | _ => false
  end.

(** [calls] push a matrix, translate it to ([tx], [ty], 0) and rotate it by
    [degrees] about the axis (0, 0, 1): every operand is initialised and
    stands for that very number. *)
Definition is_transform (calls : list call) (tx ty degrees : Z) : Prop :=
  exists fx fy fz ax ay az fa : float32,
    calls = [call_gs_matrix_push;
             call_gs_matrix_translate3f (Init fx) (Init fy) (Init fz);
             call_gs_matrix_rotaa4f ax ay az (RAD fa)]
    /\ F32.to_Z fx = Some tx /\ F32.to_Z fy = Some ty
    /\ F32.to_Z fz = Some 0
    /\ F32.to_Z ax = Some 0 /\ F32.to_Z ay = Some 0
    /\ F32.to_Z az = Some 1
    /\ F32.to_Z fa = Some degrees.

(** [calls] push a matrix, translate it, and rotate it by [degrees] about
    the axis (0, 0, 1); the translation is left open. *)
Definition is_rotation (calls : list call) (degrees : Z) : Prop :=
  exists (tx ty tz : local float32) (ax ay az fa : float32),
    calls = [call_gs_matrix_push;
             call_gs_matrix_translate3f tx ty tz;
             call_gs_matrix_rotaa4f ax ay az (RAD fa)]
    /\ F32.to_Z ax = Some 0 /\ F32.to_Z ay = Some 0
    /\ F32.to_Z az = Some 1
    /\ F32.to_Z fa = Some degrees.

(** A texture one row taller than [2^24], on a monitor turned by 90
    degrees, and the session sized from it. *)
Definition host_tall : host :=
  monitor_host (Some 1%N) (Some 2%N) 1080 (2 ^ 24 + 1) (monitor_at 90).

Definition session_tall : duplicator_capture :=
  state_of (duplicator_capture_tick host_tall F32.one session_bound).

(** The integer an operand of the translation stands for. *)
Definition local_to_Z (v : local float32) : option Z :=
  match v with
  | Init f => F32.to_Z f
  | Uninit => None
  end.




(** What holds of every session between callbacks: unbound means no
    origin and no rotation, bound means the timer is zero, and the timer is
    never at or past the interval. *)
Definition session_invariant (c : duplicator_capture) : Prop :=
  (duplicator c = None -> x c = 0 /\ y c = 0 /\ rot c = 0)
  /\ (duplicator c <> None -> reset_timeout c = F32.zero)
  /\ F32.ge (reset_timeout c) RESET_INTERVAL_SEC = false.




Definition blended : draw_state :=
  {| blending := true; color_mask := (true, true, true, true) |}.

Definition is_update (cb : callback) : bool :=
  match cb with
  | cb_update _ _ => true
  | _ => false
  end.

(** Settings with the cursor switched off, and a session made from them. *)
Definition settings_no_cursor : obs_data :=
  {| obs_data_get_int := fun _ => 0; obs_data_get_bool := fun _ => false |}.

Definition session_no_cursor : duplicator_capture :=
  fst (duplicator_capture_create settings_no_cursor (Some 1%N)
         host_landscape).


(** * Properties *)

(** ** Integers that convert to [float] without rounding *)

Lemma digits2_pos_bounds m :
  2 ^ (Zpos (digits2_pos m) - 1) <= Zpos m < 2 ^ Zpos (digits2_pos m).
Proof.
  induction m as [m IH | m IH |]; cbn [digits2_pos].
  - rewrite Pos2Z.inj_succ, (Pos2Z.inj_xI m).
    replace (Z.succ (Zpos (digits2_pos m)) - 1)
      with (Z.succ (Zpos (digits2_pos m) - 1)) by lia.
    rewrite !Z.pow_succ_r by lia. lia.
  - rewrite Pos2Z.inj_succ, (Pos2Z.inj_xO m).
    replace (Z.succ (Zpos (digits2_pos m)) - 1)
      with (Z.succ (Zpos (digits2_pos m) - 1)) by lia.
    rewrite !Z.pow_succ_r by lia. lia.
  - cbn. lia.
Qed.

Lemma iter_xO_value m k :
  Zpos (Pos.iter xO m k) = Zpos m * 2 ^ Zpos k
  /\ Zpos (digits2_pos (Pos.iter xO m k)) = Zpos (digits2_pos m) + Zpos k.
Proof.
  induction k as [| k IH] using Pos.peano_ind.
  - cbn [Pos.iter digits2_pos]. rewrite Pos2Z.inj_succ, (Pos2Z.inj_xO m).
    change (2 ^ 1) with 2. lia.
  - rewrite Pos.iter_succ. cbn [digits2_pos].
    rewrite (Pos2Z.inj_xO (Pos.iter xO m k)), !Pos2Z.inj_succ,
      Z.pow_succ_r by lia.
    destruct IH as [IH1 IH2]. rewrite IH1, IH2. lia.
Qed.

(** A mantissa of exactly 24 bits is not rounded. *)
Lemma binary_round_aux_full_mantissa m e :
  Zpos (digits2_pos m) = 24 ->
  -149 <= e <= 104 ->
  binary_round_aux F32.prec F32.emax false (Zpos m) e loc_Exact
  = S754_finite false m e.
Proof.
  intros Hd He.
  unfold binary_round_aux, shr_fexp, fexp, emin, F32.prec, F32.emax.
  cbn [Zdigits2 shr_record_of_loc]. rewrite Hd.
  replace (Z.max (24 + e - 24) (3 - 128 - 24) - e) with 0 by lia.
  cbn [shr shr_m loc_of_shr_record round_nearest_even Zdigits2]. rewrite Hd.
  replace (Z.max (24 + e - 24) (3 - 128 - 24) - e) with 0 by lia.
  cbn [shr shr_m].
  destruct (Z.leb_spec e (128 - 24)); [reflexivity | lia].
Qed.

(** Every size up to [2^24] is passed to the host as the [float] of the
    same value: the casts [(float)capture->width] and
    [(float)capture->height] lose nothing on such sizes. *)
Lemma of_Z_exact n :
  0 <= n <= 2 ^ 24 -> F32.to_Z (F32.of_Z n) = Some n.
Proof.
  intros Hn.
  destruct (Z.eq_dec n (2 ^ 24)) as [-> | Hne]; [reflexivity |].
  destruct n as [| m | m]; [reflexivity | | lia].
  pose proof (digits2_pos_bounds m) as [Hlo Hhi].
  assert (Hd : Zpos (digits2_pos m) <= 24).
  { destruct (Z.le_gt_cases (Zpos (digits2_pos m)) 24) as [H | H];
      [exact H |].
    assert (2 ^ 24 <= 2 ^ (Zpos (digits2_pos m) - 1))
      by (apply Z.pow_le_mono_r; lia).
    lia. }
  unfold F32.of_Z, binary_normalize, binary_round, shl_align, fexp, emin,
    F32.prec, F32.emax.
  replace (Z.max (Zpos (digits2_pos m) + 0 - 24) (3 - 128 - 24) - 0)
    with (Zpos (digits2_pos m) - 24) by lia.
  replace (Z.max (Zpos (digits2_pos m) + 0 - 24) (3 - 128 - 24))
    with (Zpos (digits2_pos m) - 24) by lia.
  destruct (Zpos (digits2_pos m) - 24) as [| k | k] eqn:Hk; [| lia |].
  - change 24 with F32.prec at 1. change 128 with F32.emax.
    rewrite binary_round_aux_full_mantissa by lia.
    cbn [F32.to_Z Z.leb Z.compare cond_Zopp]. rewrite Z.pow_0_r.
    f_equal. lia.
  - destruct (iter_xO_value m k) as [Hv Hdig].
    change 24 with F32.prec at 1. change 128 with F32.emax.
    rewrite binary_round_aux_full_mantissa by lia.
    cbn [F32.to_Z Z.leb Z.compare cond_Zopp Z.opp].
    rewrite Hv, Z.mod_mul, Z.eqb_refl, Z.div_mul by lia. reflexivity.
Qed.

(** The same for either sign: a rotation between [-2^24] and [2^24] is
    passed to [RAD] as the [float] of the same value. *)
Lemma binary_round_aux_full_mantissa_signed s m e :
  Zpos (digits2_pos m) = 24 ->
  -149 <= e <= 104 ->
  binary_round_aux F32.prec F32.emax s (Zpos m) e loc_Exact
  = S754_finite s m e.
Proof.
  intros Hd He.
  unfold binary_round_aux, shr_fexp, fexp, emin, F32.prec, F32.emax.
  cbn [Zdigits2 shr_record_of_loc]. rewrite Hd.
  replace (Z.max (24 + e - 24) (3 - 128 - 24) - e) with 0 by lia.
  cbn [shr shr_m loc_of_shr_record round_nearest_even Zdigits2]. rewrite Hd.
  replace (Z.max (24 + e - 24) (3 - 128 - 24) - e) with 0 by lia.
  cbn [shr shr_m].
  destruct (Z.leb_spec e (128 - 24)); [reflexivity | lia].
Qed.

Lemma binary_round_exact s m :
  Zpos m <= 2 ^ 24 ->
  F32.to_Z (binary_round F32.prec F32.emax s m 0)
  = Some (cond_Zopp s (Zpos m)).
Proof.
  intros Hm.
  destruct (Pos.eq_dec m 16777216) as [-> | Hne];
    [destruct s; reflexivity |].
  assert (Hlt : Zpos m < 2 ^ 24).
  { change (2 ^ 24) with (Zpos 16777216) in *.
    assert (Zpos m <> Zpos 16777216) by congruence. lia. }
  pose proof (digits2_pos_bounds m) as [Hlo Hhi].
  assert (Hd : Zpos (digits2_pos m) <= 24).
  { destruct (Z.le_gt_cases (Zpos (digits2_pos m)) 24) as [H | H];
      [exact H |].
    assert (2 ^ 24 <= 2 ^ (Zpos (digits2_pos m) - 1))
      by (apply Z.pow_le_mono_r; lia).
    lia. }
  unfold binary_round, shl_align, fexp, emin, F32.prec, F32.emax.
  replace (Z.max (Zpos (digits2_pos m) + 0 - 24) (3 - 128 - 24) - 0)
    with (Zpos (digits2_pos m) - 24) by lia.
  replace (Z.max (Zpos (digits2_pos m) + 0 - 24) (3 - 128 - 24))
    with (Zpos (digits2_pos m) - 24) by lia.
  destruct (Zpos (digits2_pos m) - 24) as [| k | k] eqn:Hk; [| lia |].
  - change 24 with F32.prec at 1. change 128 with F32.emax.
    rewrite binary_round_aux_full_mantissa_signed by lia.
    cbn [F32.to_Z Z.leb Z.compare]. rewrite Z.pow_0_r, Z.mul_1_r.
    reflexivity.
  - destruct (iter_xO_value m k) as [Hv Hdig].
    change 24 with F32.prec at 1. change 128 with F32.emax.
    rewrite binary_round_aux_full_mantissa_signed by lia.
    cbn [F32.to_Z Z.leb Z.compare Z.opp].
    rewrite Hv, Z.mod_mul, Z.eqb_refl, Z.div_mul by lia. reflexivity.
Qed.

Lemma of_Z_exact_signed n :
  - 2 ^ 24 <= n <= 2 ^ 24 -> F32.to_Z (F32.of_Z n) = Some n.
Proof.
  intros Hn. destruct n as [| m | m]; [reflexivity | |];
    unfold F32.of_Z, binary_normalize; rewrite binary_round_exact;
    try reflexivity.
  - lia.
  - change (2 ^ 24) with 16777216 in *. lia.
Qed.

(** The literals are the floats of 0, 1 and 3. *)
Lemma literals_are_integers :
  F32.zero = F32.of_Z 0 /\ F32.one = F32.of_Z 1 /\ F32.three = F32.of_Z 3.
Proof. repeat split. Qed.

Ltac run_M :=
  unfold state_of, trace_of, duplicator_capture_update, update_settings,
    duplicator_capture_tick, reset_capture_data, duplicator_capture_render,
    render_pass, draw_cursor, when, bind, get, modify, extern, ret;
  cbn.

(** Evaluate, rewriting with the known answers of the host wherever the
    evaluation uncovers them. *)
Ltac eval_M :=
  repeat (cbn; match goal with
               | H : ?l = _ |- context [?l] => rewrite H
               end);
  cbn.

(** ** The tick, case by case *)

Lemma tick_hidden h seconds c :
  obs_source_showing h (source c) = false ->
  duplicator_capture_tick h seconds c
  = (tt, c, [call_obs_source_showing (source c)]).
Proof.
  intros Hs. run_M. rewrite Hs. reflexivity.
Qed.

Lemma tick_bound_failure h seconds c d :
  obs_source_showing h (source c) = true ->
  duplicator c = Some d ->
  gs_duplicator_update_frame h d = false ->
  duplicator_capture_tick h seconds c
  = (tt, cold_restart (sample_cursor h c),
     [call_obs_source_showing (source c); call_obs_enter_graphics]
       ++ cursor_calls c
       ++ [call_gs_duplicator_update_frame d;
           call_gs_duplicator_destroy (Some d); call_obs_leave_graphics]).
Proof.
  intros Hs Hd Hf. run_M. unfold sample_cursor, cursor_calls.
  destruct (capture_cursor c) eqn:Hc; eval_M; reflexivity.
Qed.

Lemma reset_capture_data_eq h c :
  reset_capture_data h c = (tt, refresh_geometry h c, geometry_calls h c).
Proof. reflexivity. Qed.

Lemma tick_bound_success_unsized h seconds c d :
  obs_source_showing h (source c) = true ->
  duplicator c = Some d ->
  gs_duplicator_update_frame h d = true ->
  width c = 0 ->
  duplicator_capture_tick h seconds c
  = (tt, refresh_geometry h (sample_cursor h c),
     [call_obs_source_showing (source c); call_obs_enter_graphics]
       ++ cursor_calls c
       ++ [call_gs_duplicator_update_frame d]
       ++ geometry_calls h (sample_cursor h c)
       ++ [call_obs_leave_graphics]).
Proof.
  intros Hs Hd Hf Hw. run_M.
  unfold sample_cursor, cursor_calls, refresh_geometry, geometry_calls.
  destruct (capture_cursor c) eqn:Hc; eval_M; reflexivity.
Qed.

Lemma tick_bound_success_sized h seconds c d :
  obs_source_showing h (source c) = true ->
  duplicator c = Some d ->
  gs_duplicator_update_frame h d = true ->
  width c <> 0 ->
  duplicator_capture_tick h seconds c
  = (tt, sample_cursor h c,
     [call_obs_source_showing (source c); call_obs_enter_graphics]
       ++ cursor_calls c
       ++ [call_gs_duplicator_update_frame d; call_obs_leave_graphics]).
Proof.
  intros Hs Hd Hf Hw. apply Z.eqb_neq in Hw. run_M.
  unfold sample_cursor, cursor_calls.
  destruct (capture_cursor c) eqn:Hc; eval_M; reflexivity.
Qed.

Lemma tick_unbound_wait h seconds c :
  obs_source_showing h (source c) = true ->
  duplicator c = None ->
  F32.ge (F32.add (reset_timeout c) seconds) RESET_INTERVAL_SEC = false ->
  duplicator_capture_tick h seconds c
  = (tt, set_reset_timeout (F32.add (reset_timeout c) seconds) c,
     [call_obs_source_showing (source c); call_obs_enter_graphics;
      call_obs_leave_graphics]).
Proof.
  intros Hs Hd Hg. run_M. eval_M. reflexivity.
Qed.

Lemma tick_unbound_create_failure h seconds c :
  obs_source_showing h (source c) = true ->
  duplicator c = None ->
  F32.ge (F32.add (reset_timeout c) seconds) RESET_INTERVAL_SEC = true ->
  gs_duplicator_create h (monitor c) = None ->
  duplicator_capture_tick h seconds c
  = (tt, after_create None c,
     [call_obs_source_showing (source c); call_obs_enter_graphics;
      call_gs_duplicator_create (monitor c); call_obs_leave_graphics]).
Proof.
  intros Hs Hd Hg Hc. run_M. eval_M. reflexivity.
Qed.

Lemma tick_unbound_create_success h seconds c d :
  obs_source_showing h (source c) = true ->
  duplicator c = None ->
  F32.ge (F32.add (reset_timeout c) seconds) RESET_INTERVAL_SEC = true ->
  gs_duplicator_create h (monitor c) = Some d ->
  gs_duplicator_update_frame h d = true ->
  width c = 0 ->
  duplicator_capture_tick h seconds c
  = (tt, refresh_geometry h (sample_cursor h (after_create (Some d) c)),
     [call_obs_source_showing (source c); call_obs_enter_graphics;
      call_gs_duplicator_create (monitor c)]
       ++ cursor_calls c
       ++ [call_gs_duplicator_update_frame d]
       ++ geometry_calls h (sample_cursor h (after_create (Some d) c))
       ++ [call_obs_leave_graphics]).
Proof.
  intros Hs Hd Hg Hc Hf Hw. run_M.
  unfold sample_cursor, cursor_calls, refresh_geometry, geometry_calls.
  destruct (capture_cursor c) eqn:Hcc; eval_M; reflexivity.
Qed.

(** ** Settings update *)

Lemma update_settings_eq settings h c :
  update_settings settings h c
  = (tt,
     {| source := source c;
        monitor := int_of_long_long (obs_data_get_int settings "monitor");
        capture_cursor := obs_data_get_bool settings "capture_cursor";
        x := 0; y := 0; rot := 0; width := 0; height := 0;
        duplicator :=
          gs_duplicator_create h
            (int_of_long_long (obs_data_get_int settings "monitor"));
        reset_timeout := F32.zero;
        cursor := cursor c |},
     [call_obs_data_get_int "monitor";
      call_obs_data_get_bool "capture_cursor";
      call_obs_enter_graphics;
      call_gs_duplicator_destroy (duplicator c);
      call_gs_duplicator_create
        (int_of_long_long (obs_data_get_int settings "monitor"));
      call_obs_leave_graphics]).
Proof. reflexivity. Qed.

(** C4. Whatever the session and the settings were, and whether or not the
    host could create the duplicator, the session that [update_settings]
    (the configure operation, reached through the update and the create
    callbacks) leaves has width, height, x, y and rotation equal to zero and
    its retry timer equal to [0.0f]. *)
Theorem update_settings_zeroes_geometry :
  forall (settings : obs_data) (h : host) (c : duplicator_capture),
    let c' := state_of (update_settings settings h c) in
    width c' = 0 /\ height c' = 0 /\ x c' = 0 /\ y c' = 0 /\ rot c' = 0
    /\ reset_timeout c' = F32.zero
    /\ duplicator c' = gs_duplicator_create h (monitor c')
    /\ state_of (duplicator_capture_update settings h c) = c'.
Proof.
  intros settings h c. rewrite update_settings_eq. cbn.
  repeat split; reflexivity.
Qed.

(** ** Frame-update failure *)

(** C3. In a bound session, one visible tick whose frame update fails
    leaves the session unbound, with width, height, x, y, rotation and the
    retry timer all zero.  The tick is a single transition: the session
    seen after it is this one, and the duplicator that failed was
    destroyed during it. *)
Theorem tick_frame_failure_cold_restart :
  forall (h : host) (seconds : float32) (c : duplicator_capture)
         (d : gs_duplicator),
    obs_source_showing h (source c) = true ->
    duplicator c = Some d ->
    gs_duplicator_update_frame h d = false ->
    let r := duplicator_capture_tick h seconds c in
    Unbound (state_of r)
    /\ width (state_of r) = 0 /\ height (state_of r) = 0
    /\ x (state_of r) = 0 /\ y (state_of r) = 0 /\ rot (state_of r) = 0
    /\ reset_timeout (state_of r) = F32.zero
    /\ In (call_gs_duplicator_destroy (Some d)) (trace_of r).
Proof.
  intros h seconds c d Hs Hd Hf.
  rewrite (tick_bound_failure h seconds c d Hs Hd Hf).
  unfold Unbound, state_of, trace_of. cbn.
  repeat split; try reflexivity.
  right. right. apply in_or_app. right. cbn. auto.
Qed.

(** ** Hidden source *)

(** C8. When the source is not showing, the tick leaves the session as it
    was, field for field, and calls neither the duplication API nor the
    cursor overlay: all it does is ask whether the source is showing. *)
Theorem tick_hidden_is_noop :
  forall (h : host) (seconds : float32) (c : duplicator_capture),
    obs_source_showing h (source c) = false ->
    state_of (duplicator_capture_tick h seconds c) = c
    /\ trace_of (duplicator_capture_tick h seconds c)
       = [call_obs_source_showing (source c)]
    /\ existsb is_duplication_api
         (trace_of (duplicator_capture_tick h seconds c)) = false
    /\ existsb is_cursor_overlay
         (trace_of (duplicator_capture_tick h seconds c)) = false.
Proof.
  intros h seconds c Hs. rewrite (tick_hidden h seconds c Hs).
  repeat split; reflexivity.
Qed.

(** ** Effective dimensions *)

Lemma effective_dimensions_cases c :
  effective_dimensions c
  = if c_rem (rot c) 180 =? 0 then (width c, height c)
    else (height c, width c).
Proof.
  unfold effective_dimensions, duplicator_capture_width,
    duplicator_capture_height.
  destruct (c_rem (rot c) 180 =? 0); reflexivity.
Qed.

(** C5. For a rotation among 0, 90, 180 and 270 and any raw size (w, h),
    the width and height callbacks return (w, h) when the rotation is a
    multiple of 180 and (h, w) otherwise, the second case being exactly
    rotations 90 and 270; swapping again under the same rotation gives the
    raw pair back. *)
Theorem effective_dimensions_swap :
  forall c : duplicator_capture,
    In (rot c) [0; 90; 180; 270] ->
    (rot c mod 180 = 0 -> effective_dimensions c = (width c, height c))
    /\ (rot c mod 180 <> 0 -> effective_dimensions c = (height c, width c))
    /\ (rot c mod 180 <> 0 <-> rot c = 90 \/ rot c = 270)
    /\ effective_dimensions (with_effective_dimensions c)
       = (width c, height c).
Proof.
  intros c Hr. rewrite !effective_dimensions_cases.
  unfold with_effective_dimensions, duplicator_capture_width,
    duplicator_capture_height, c_rem.
  cbn in Hr. cbn [rot width height set_width set_height].
  destruct Hr as [Hr | [Hr | [Hr | [Hr | []]]]]; rewrite <- Hr;
    change (Z.rem 0 180) with 0; change (Z.rem 90 180) with 90;
    change (Z.rem 180 180) with 0; change (Z.rem 270 180) with 90;
    change (0 mod 180) with 0; change (90 mod 180) with 90;
    change (180 mod 180) with 0; change (270 mod 180) with 90;
    cbn [Z.eqb Pos.eqb];
    (split; [| split; [| split]]);
    try reflexivity; try (intros; reflexivity);
    try (intros; exfalso; lia); try (split; intros; lia).
Qed.

(** ** The retry timer *)

Lemma whole_seconds_step n :
  (n < 3)%nat ->
  F32.add (whole_seconds n) F32.one = whole_seconds (S n)
  /\ F32.ge (whole_seconds (S n)) RESET_INTERVAL_SEC = Nat.eqb (S n) 3.
Proof.
  intros Hn.
  destruct n as [| [| [| n]]]; [split; reflexivity .. | lia].
Qed.

(** Whenever a tick tries to create the duplicator, it leaves the timer at
    zero, whether the creation worked or not and whatever happens to the
    new duplicator in the rest of the tick. *)
Lemma tick_attempt_resets_timer h seconds c :
  existsb is_create (trace_of (duplicator_capture_tick h seconds c)) = true ->
  reset_timeout (state_of (duplicator_capture_tick h seconds c)) = F32.zero.
Proof.
  run_M.
  destruct (obs_source_showing h (source c)) eqn:Hs; cbn; [| discriminate].
  destruct (duplicator c) as [d |] eqn:Hd; cbn.
  - rewrite Hd. cbn.
    destruct (capture_cursor c) eqn:Hc; cbn;
      destruct (gs_duplicator_update_frame h d) eqn:Hf; cbn;
      try reflexivity;
      destruct (width c =? 0) eqn:Hw; cbn; discriminate.
  - destruct (F32.ge (F32.add (reset_timeout c) seconds) RESET_INTERVAL_SEC)
      eqn:Hg; cbn.
    + destruct (gs_duplicator_create h (monitor c)) as [d |] eqn:Hcr; cbn;
        [| reflexivity].
      destruct (capture_cursor c) eqn:Hc; cbn;
        destruct (gs_duplicator_update_frame h d) eqn:Hf; cbn;
        try reflexivity;
        destruct (width c =? 0) eqn:Hw; cbn; reflexivity.
    + rewrite Hd. cbn. discriminate.
Qed.

(** One failing second: the timer goes from [n] to [n + 1] without an
    attempt while [n + 1 < 3], and from 2 to 0 through an attempt. *)
Lemma tick_failing_second h c n :
  (n < 3)%nat ->
  Unbound c ->
  reset_timeout c = whole_seconds n ->
  visible_failing c h ->
  let r := duplicator_capture_tick h F32.one c in
  Unbound (state_of r)
  /\ source (state_of r) = source c
  /\ monitor (state_of r) = monitor c
  /\ reset_timeout (state_of r) = whole_seconds (S n mod 3)
  /\ existsb is_create (trace_of r) = Nat.eqb (S n) 3.
Proof.
  intros Hn Hu Ht [Hs Hc]. unfold Unbound in *.
  destruct (whole_seconds_step n Hn) as [Hadd Hge].
  destruct (Nat.eqb (S n) 3) eqn:H3.
  - apply Nat.eqb_eq in H3.
    rewrite (tick_unbound_create_failure h F32.one c Hs Hu); auto.
    + rewrite H3. repeat split; reflexivity.
    + rewrite Ht, Hadd. exact Hge.
  - apply Nat.eqb_neq in H3.
    rewrite (tick_unbound_wait h F32.one c Hs Hu).
    + rewrite Ht, Hadd, Nat.mod_small by lia. repeat split; auto.
    + rewrite Ht, Hadd. exact Hge.
Qed.

Lemma run_ticks_failing hs :
  forall c n,
    (n < 3)%nat ->
    Unbound c ->
    reset_timeout c = whole_seconds n ->
    Forall (visible_failing c) hs ->
    forall k tr c',
      nth_error (run_ticks c (map (fun h => (h, F32.one)) hs)) k
      = Some (tr, c') ->
      Unbound c'
      /\ reset_timeout c' = whole_seconds ((n + S k) mod 3)
      /\ existsb is_create tr = Nat.eqb ((n + S k) mod 3) 0.
Proof.
  induction hs as [| h hs IH]; intros c n Hn Hu Ht Hall k tr c' Hk.
  - destruct k; discriminate.
  - inversion Hall as [| ? ? Hh Hrest]; subst.
    destruct (tick_failing_second h c n Hn Hu Ht Hh)
      as (Hu1 & Hsrc & Hmon & Ht1 & Hcr).
    cbn [run_ticks map nth_error] in Hk. destruct k as [| k].
    + cbn [nth_error] in Hk. inversion Hk; subst.
      replace (n + 1)%nat with (S n) by lia.
      repeat split; auto.
      rewrite Hcr. destruct n as [| [| [| n]]]; try reflexivity; lia.
    + cbn [nth_error] in Hk.
      assert (Hlt : (S n mod 3 < 3)%nat) by (apply Nat.mod_upper_bound; lia).
      assert (Hall1 : Forall
                (visible_failing
                   (state_of (duplicator_capture_tick h F32.one c))) hs).
      { eapply Forall_impl; [| exact Hrest].
        unfold visible_failing. intros a. rewrite Hsrc, Hmon. auto. }
      destruct (IH _ _ Hlt Hu1 Ht1 Hall1 k tr c' Hk) as (Hu' & Ht' & Hcr').
      assert (Hmod : ((S n mod 3 + S k) mod 3 = (n + S (S k)) mod 3)%nat).
      { rewrite Nat.Div0.add_mod_idemp_l. f_equal. lia. }
      rewrite Hmod in Ht', Hcr'. auto.
Qed.

(** C2. From an unbound session whose retry timer is zero, over any run of
    visible ticks of [1.0f] second each during which the duplicator cannot
    be created: the first two ticks make no creation attempt (the third
    one, at 3.0 seconds, does), and every tick that makes an attempt leaves
    the timer at [0.0f].  [k] counts the ticks from zero.  The last part
    holds of any tick at all, also when the creation succeeds. *)
Theorem retry_waits_three_seconds :
  forall (c : duplicator_capture) (hs : list host),
    Unbound c ->
    reset_timeout c = F32.zero ->
    Forall (visible_failing c) hs ->
    (forall (k : nat) (tr : list call) (c' : duplicator_capture),
       nth_error (run_ticks c (map (fun h => (h, F32.one)) hs)) k
       = Some (tr, c') ->
       ((k < 2)%nat -> existsb is_create tr = false)
       /\ (k = 2%nat -> existsb is_create tr = true)
       /\ (existsb is_create tr = true -> reset_timeout c' = F32.zero)
       /\ Unbound c')
    /\ (forall (h : host) (seconds : float32) (c0 : duplicator_capture),
          existsb is_create
            (trace_of (duplicator_capture_tick h seconds c0)) = true ->
          reset_timeout (state_of (duplicator_capture_tick h seconds c0))
          = F32.zero).
Proof.
  intros c hs Hu Ht Hall. split; [| exact tick_attempt_resets_timer].
  intros k tr c' Hk.
  destruct (run_ticks_failing hs c 0%nat) with (k := k) (tr := tr) (c' := c')
    as (Hu' & Ht' & Hcr'); auto.
  cbn [Nat.add] in Ht', Hcr'.
  repeat split; auto.
  - intros Hlt. rewrite Hcr'.
    destruct k as [| [| k]]; [reflexivity | reflexivity | lia].
  - intros ->. rewrite Hcr'. reflexivity.
  - intros Hcr. rewrite Hcr' in Hcr. apply Nat.eqb_eq in Hcr.
    rewrite Ht', Hcr. reflexivity.
Qed.

(** ** The render callback *)

Lemma render_pass_eq tex r c :
  render_pass tex r c
  = (tt, c, pass_calls tex c (transform_calls c r) (restore_calls r)).
Proof.
  run_M.
  unfold pass_calls, transform_calls, restore_calls, cursor_draw_calls,
    duplicator_capture_width, duplicator_capture_height.
  destruct (r =? 0); cbn;
    [| destruct (render_translation c r) as [tx ty]; cbn];
    destruct (capture_cursor c); reflexivity.
Qed.

Lemma effect_loop_eq (body : M unit) c t n :
  body c = (tt, c, t) ->
  effect_loop n body c
  = (tt, c,
     concat (repeat (call_gs_effect_loop "Draw" :: t) n)
       ++ [call_gs_effect_loop "Draw"]).
Proof.
  intros Hbody. induction n as [| n IH]; [reflexivity |].
  cbn [effect_loop repeat concat]. unfold bind, extern in *.
  rewrite Hbody, IH. cbn. rewrite <- app_assoc. reflexivity.
Qed.

Lemma render_eq h c d tex :
  duplicator c = Some d ->
  gs_duplicator_get_texture h (Some d) = Some tex ->
  duplicator_capture_render h c
  = (tt, c,
     render_calls h tex c (transform_calls c (rot c))
       (restore_calls (rot c))).
Proof.
  intros Hd Htex.
  unfold duplicator_capture_render, bind, get, extern.
  rewrite Hd, Htex.
  rewrite (effect_loop_eq _ c _ _ (render_pass_eq tex (rot c) c)).
  unfold render_calls. rewrite Hd. reflexivity.
Qed.

(** ** The invariant of unbound sessions *)

Lemma update_settings_unsized settings h c :
  unbound_is_unsized (state_of (update_settings settings h c)).
Proof.
  rewrite update_settings_eq. unfold unbound_is_unsized. cbn. auto.
Qed.

Lemma create_unsized settings src h :
  unbound_is_unsized (fst (duplicator_capture_create settings src h)).
Proof.
  unfold unbound_is_unsized. cbn. auto.
Qed.

Lemma render_keeps_session h c :
  state_of (duplicator_capture_render h c) = c.
Proof.
  destruct (duplicator c) as [d |] eqn:Hd;
    [destruct (gs_duplicator_get_texture h (Some d)) as [tex |] eqn:Htex |].
  - rewrite (render_eq h c d tex Hd Htex). reflexivity.
  - unfold duplicator_capture_render, bind, get, extern.
    rewrite Hd, Htex. reflexivity.
  - unfold duplicator_capture_render, bind, get. rewrite Hd. reflexivity.
Qed.

Lemma tick_keeps_unsized h seconds c :
  unbound_is_unsized c ->
  unbound_is_unsized (state_of (duplicator_capture_tick h seconds c)).
Proof.
  unfold unbound_is_unsized. intros Hinv. run_M.
  destruct (obs_source_showing h (source c)) eqn:Hs; cbn; [| exact Hinv].
  destruct (duplicator c) as [d |] eqn:Hd; cbn.
  - rewrite Hd. cbn.
    destruct (capture_cursor c) eqn:Hc; cbn;
      destruct (gs_duplicator_update_frame h d) eqn:Hf; cbn; auto;
      destruct (width c =? 0) eqn:Hw; cbn; rewrite ?Hd; congruence.
  - destruct (F32.ge (F32.add (reset_timeout c) seconds) RESET_INTERVAL_SEC)
      eqn:Hg; cbn.
    + destruct (gs_duplicator_create h (monitor c)) as [d |] eqn:Hcr; cbn;
        [| auto].
      destruct (capture_cursor c) eqn:Hc; cbn;
        destruct (gs_duplicator_update_frame h d) eqn:Hf; cbn; auto;
        destruct (width c =? 0) eqn:Hw; cbn; congruence.
    + rewrite Hd. cbn. auto.
Qed.

Lemma reachable_unsized c : reachable c -> unbound_is_unsized c.
Proof.
  intros Hr.
  induction Hr as [settings src h | c settings h Hr IH
                   | c h seconds Hr IH | c h Hr IH].
  - apply create_unsized.
  - apply update_settings_unsized.
  - apply tick_keeps_unsized, IH.
  - rewrite render_keeps_session. exact IH.
Qed.

(** C7. In every session the host can hold (made by the create callback,
    then taken through the update, tick and render callbacks in any order
    and under any answers of the host), a null duplicator implies that the
    cached width and height are both zero. *)
Theorem reachable_unbound_is_unsized :
  forall c : duplicator_capture,
    reachable c ->
    duplicator c = None -> width c = 0 /\ height c = 0.
Proof.
  intros c Hr. exact (reachable_unsized c Hr).
Qed.

(** ** Sampling the geometry *)

Lemma sample_cursor_fields h c :
  duplicator (sample_cursor h c) = duplicator c
  /\ monitor (sample_cursor h c) = monitor c
  /\ width (sample_cursor h c) = width c
  /\ height (sample_cursor h c) = height c
  /\ x (sample_cursor h c) = x c
  /\ y (sample_cursor h c) = y c
  /\ rot (sample_cursor h c) = rot c
  /\ reset_timeout (sample_cursor h c) = reset_timeout c.
Proof.
  unfold sample_cursor. destruct (capture_cursor c); cbn; repeat split.
Qed.

Lemma cursor_calls_no_query c :
  filter is_monitor_info_query (cursor_calls c) = [].
Proof. unfold cursor_calls. destruct (capture_cursor c); reflexivity. Qed.

(** C9, as the code has it.  A visible tick of a bound session whose frame
    update succeeds: when the cached width is zero it asks for the monitor
    info exactly once and writes width and height from the texture of the
    duplicator and origin and rotation from that monitor info, and the
    session is then Bound-Sized exactly when the texture width it was given
    is not zero; when the cached width is not zero it asks for no monitor
    info and leaves width, height, origin and rotation as they were. *)
Theorem tick_samples_geometry_once :
  forall (h : host) (seconds : float32) (c : duplicator_capture)
         (d : gs_duplicator),
    obs_source_showing h (source c) = true ->
    duplicator c = Some d ->
    gs_duplicator_update_frame h d = true ->
    let r := duplicator_capture_tick h seconds c in
    let c' := state_of r in
    (width c = 0 ->
       length (filter is_monitor_info_query (trace_of r)) = 1%nat
       /\ duplicator c' = Some d
       /\ width c' = gs_texture_get_width h (reported_texture h d)
       /\ height c' = gs_texture_get_height h (reported_texture h d)
       /\ x c' = mi_x (reported_info h c)
       /\ y c' = mi_y (reported_info h c)
       /\ rot c' = rotation_degrees (reported_info h c)
       /\ (Bound_Sized c'
           <-> gs_texture_get_width h (reported_texture h d) <> 0))
    /\ (width c <> 0 ->
          length (filter is_monitor_info_query (trace_of r)) = 0%nat
          /\ Bound_Sized c'
          /\ width c' = width c /\ height c' = height c
          /\ x c' = x c /\ y c' = y c /\ rot c' = rot c).
Proof.
  intros h seconds c d Hs Hd Hf r c'. subst c' r.
  destruct (sample_cursor_fields h c)
    as (Sd & Sm & Sw & Sh & Sx & Sy & Sr & St).
  split; intros Hw.
  - rewrite (tick_bound_success_unsized h seconds c d Hs Hd Hf Hw).
    unfold state_of, trace_of, reported_texture, reported_info,
      Bound_Sized. cbn [fst snd].
    unfold refresh_geometry, geometry_calls.
    rewrite Sd, Sm, Hd. cbn [app filter is_monitor_info_query].
    rewrite filter_app, cursor_calls_no_query. cbn.
    repeat split; try reflexivity; try tauto; congruence.
  - rewrite (tick_bound_success_sized h seconds c d Hs Hd Hf Hw).
    unfold state_of, trace_of, Bound_Sized.
    cbn [fst snd app filter is_monitor_info_query].
    rewrite filter_app, cursor_calls_no_query. cbn.
    rewrite Sd, Sw, Sh, Sx, Sy, Sr, Hd.
    repeat split; auto; congruence.
Qed.

(** ** Creation, first frame and geometry in one tick *)

Lemma cursor_calls_no_acquisition c :
  filter is_acquisition_step (cursor_calls c) = [].
Proof. unfold cursor_calls. destruct (capture_cursor c); reflexivity. Qed.

(** C10, as the code has it.  A visible tick of an unbound session in which
    the retry timer, once the tick's seconds are added, is at or past 3.0
    seconds, the creation succeeds and the frame update succeeds: the
    creation, the frame update and the monitor-info query happen in that
    order within this one tick, which leaves the session bound, its timer
    at zero, width and height written from the texture and origin and
    rotation from the monitor info; the session is Bound-Sized exactly when
    the texture width it was given is not zero. *)
Theorem tick_creates_and_samples_at_once :
  forall (h : host) (seconds : float32) (c : duplicator_capture)
         (d : gs_duplicator),
    reachable c ->
    Unbound c ->
    obs_source_showing h (source c) = true ->
    F32.ge (F32.add (reset_timeout c) seconds) RESET_INTERVAL_SEC = true ->
    gs_duplicator_create h (monitor c) = Some d ->
    gs_duplicator_update_frame h d = true ->
    let r := duplicator_capture_tick h seconds c in
    let c' := state_of r in
    filter is_acquisition_step (trace_of r)
    = [call_gs_duplicator_create (monitor c);
       call_gs_duplicator_update_frame d;
       call_gs_get_duplicator_monitor_info (monitor c)]
    /\ duplicator c' = Some d
    /\ reset_timeout c' = F32.zero
    /\ width c' = gs_texture_get_width h (reported_texture h d)
    /\ height c' = gs_texture_get_height h (reported_texture h d)
    /\ x c' = mi_x (reported_info h c)
    /\ y c' = mi_y (reported_info h c)
    /\ rot c' = rotation_degrees (reported_info h c)
    /\ (Bound_Sized c'
        <-> gs_texture_get_width h (reported_texture h d) <> 0).
Proof.
  intros h seconds c d Hr Hu Hs Hg Hc Hf r c'. subst c' r.
  destruct (reachable_unsized c Hr Hu) as [Hw _].
  rewrite (tick_unbound_create_success h seconds c d Hs Hu Hg Hc Hf Hw).
  destruct (sample_cursor_fields h (after_create (Some d) c))
    as (Sd & Sm & Sw & Sh & Sx & Sy & Sr & St).
  unfold state_of, trace_of, reported_texture, reported_info, Bound_Sized.
  cbn [fst snd]. unfold refresh_geometry, geometry_calls.
  rewrite Sd, Sm.
  cbn [after_create set_reset_timeout set_duplicator duplicator monitor
         app filter is_acquisition_step is_create orb].
  rewrite filter_app, cursor_calls_no_acquisition. cbn.
  rewrite St, Sd. cbn.
  repeat split; try reflexivity; try tauto; congruence.
Qed.

(** ** The render transform *)

(** C6, as the code has it.  Render of a bound session that has a
    texture, for raw width and height up to 2^24: with rotation 0 each
    pass draws the texture with no matrix call at all; with rotation 90 it
    pushes a matrix, translates to exactly (height, 0) and rotates by
    exactly 90 degrees about the Z axis, draws, and pops; with rotation
    180 the translation is to (width, height) and the angle 180; with
    rotation 270 the translation is to (0, width) and the angle 270.
    (Sizes are passed as [float]; above 2^24 the cast may round them.) *)
Theorem render_transform_exact_by_rotation :
  forall (h : host) (c : duplicator_capture) (d : gs_duplicator)
         (tex : gs_texture),
    duplicator c = Some d ->
    gs_duplicator_get_texture h (Some d) = Some tex ->
    0 <= width c <= 2 ^ 24 ->
    0 <= height c <= 2 ^ 24 ->
    let tr := trace_of (duplicator_capture_render h c) in
    (rot c = 0 -> tr = render_calls h tex c [] [])
    /\ (rot c = 90 ->
        exists t, tr = render_calls h tex c t [call_gs_matrix_pop]
                  /\ is_transform t (height c) 0 90)
    /\ (rot c = 180 ->
        exists t, tr = render_calls h tex c t [call_gs_matrix_pop]
                  /\ is_transform t (width c) (height c) 180)
    /\ (rot c = 270 ->
        exists t, tr = render_calls h tex c t [call_gs_matrix_pop]
                  /\ is_transform t 0 (width c) 270).
Proof.
  intros h c d tex Hd Htex Hw Hh tr. subst tr.
  rewrite (render_eq h c d tex Hd Htex). unfold trace_of. cbn [snd].
  pose proof (of_Z_exact (width c) Hw) as Ew.
  pose proof (of_Z_exact (height c) Hh) as Eh.
  split; [intros Hr; rewrite Hr; reflexivity |].
  split; [| split]; intros Hr; rewrite Hr;
    (eexists; split; [reflexivity |]);
    unfold is_transform, render_translation; cbn [Z.eqb Pos.eqb fst snd];
    do 7 eexists; (split; [reflexivity |]);
    repeat split; try reflexivity; assumption.
Qed.

(** C1, as the code has it.  Render of a bound session that has a texture:
    the draw goes without any matrix call only when the cached rotation is
    0.  For every other cached rotation, among them every value outside 0,
    90, 180 and 270, each pass pushes a matrix, translates, rotates about
    the Z axis by the [float] conversion of the cached rotation, draws,
    and pops; for a rotation between -2^24 and 2^24 that angle is exactly
    the cached rotation, not 0. *)
Theorem render_identity_only_for_zero :
  forall (h : host) (c : duplicator_capture) (d : gs_duplicator)
         (tex : gs_texture),
    duplicator c = Some d ->
    gs_duplicator_get_texture h (Some d) = Some tex ->
    let tr := trace_of (duplicator_capture_render h c) in
    (rot c = 0 -> tr = render_calls h tex c [] [])
    /\ (rot c <> 0 ->
        exists tx ty : local float32,
          tr = render_calls h tex c
                 [call_gs_matrix_push;
                  call_gs_matrix_translate3f tx ty (Init F32.zero);
                  call_gs_matrix_rotaa4f F32.zero F32.zero F32.one
                    (RAD (F32.of_Z (rot c)))]
                 [call_gs_matrix_pop])
    /\ (rot c <> 0 ->
        - 2 ^ 24 <= rot c <= 2 ^ 24 ->
        exists t, tr = render_calls h tex c t [call_gs_matrix_pop]
                  /\ is_rotation t (rot c)).
Proof.
  intros h c d tex Hd Htex tr. subst tr.
  rewrite (render_eq h c d tex Hd Htex). unfold trace_of. cbn [snd].
  split; [intros Hr; rewrite Hr; reflexivity |].
  split; intros Hr.
  - exists (fst (render_translation c (rot c))),
           (snd (render_translation c (rot c))).
    unfold transform_calls, restore_calls.
    apply Z.eqb_neq in Hr. rewrite Hr. reflexivity.
  - intros Hb. pose proof (of_Z_exact_signed (rot c) Hb) as Ea.
    unfold transform_calls, restore_calls.
    apply Z.eqb_neq in Hr. rewrite Hr.
    eexists. split; [reflexivity |].
    unfold is_rotation. do 7 eexists. split; [reflexivity |].
    repeat split; try reflexivity; assumption.
Qed.

(** * Instances and counterexamples *)

Lemma session_unbound_reachable : reachable session_unbound.
Proof. apply reach_create. Defined.

Lemma tick_frame_failure_cold_restart_witness :
  obs_source_showing host_device_lost (source session_portrait) = true
  /\ duplicator session_portrait = Some 1%N
  /\ gs_duplicator_update_frame host_device_lost 1%N = false
  /\ Unbound (state_of (duplicator_capture_tick host_device_lost F32.one
                          session_portrait))
  /\ width (state_of (duplicator_capture_tick host_device_lost F32.one
                        session_portrait)) = 0.
Proof.
  split; [reflexivity | split; [reflexivity | split; [reflexivity |]]].
  destruct (tick_frame_failure_cold_restart host_device_lost F32.one
              session_portrait 1%N) as (Hu & Hw & _);
    [reflexivity | reflexivity | reflexivity |].
  split; [exact Hu | exact Hw].
Defined.

Lemma tick_hidden_is_noop_witness :
  obs_source_showing host_hidden (source session_unbound) = false
  /\ state_of (duplicator_capture_tick host_hidden F32.three session_unbound)
     = session_unbound.
Proof.
  split; [reflexivity |].
  apply (tick_hidden_is_noop host_hidden F32.three session_unbound).
  reflexivity.
Defined.

Lemma effective_dimensions_swap_witness :
  In (rot session_portrait) [0; 90; 180; 270]
  /\ effective_dimensions (with_effective_dimensions session_portrait)
     = (width session_portrait, height session_portrait).
Proof.
  assert (Hin : In (rot session_portrait) [0; 90; 180; 270])
    by (right; left; reflexivity).
  split; [exact Hin |].
  apply (effective_dimensions_swap session_portrait Hin).
Defined.

Lemma retry_waits_three_seconds_witness :
  Unbound session_unbound
  /\ reset_timeout session_unbound = F32.zero
  /\ Forall (visible_failing session_unbound)
       [host_no_monitor; host_no_monitor; host_no_monitor; host_no_monitor]
  /\ forall k tr c',
       nth_error
         (run_ticks session_unbound
            (map (fun h => (h, F32.one))
               [host_no_monitor; host_no_monitor; host_no_monitor;
                host_no_monitor])) k = Some (tr, c') ->
       ((k < 2)%nat -> existsb is_create tr = false)
       /\ (k = 2%nat -> existsb is_create tr = true)
       /\ (existsb is_create tr = true -> reset_timeout c' = F32.zero)
       /\ Unbound c'.
Proof.
  assert (Hall : Forall (visible_failing session_unbound)
                   [host_no_monitor; host_no_monitor; host_no_monitor;
                    host_no_monitor])
    by (repeat constructor).
  split; [reflexivity | split; [reflexivity | split; [exact Hall |]]].
  apply (retry_waits_three_seconds session_unbound _
           (eq_refl : Unbound session_unbound) eq_refl Hall).
Defined.

Lemma reachable_unbound_is_unsized_witness :
  reachable session_unbound
  /\ duplicator session_unbound = None
  /\ width session_unbound = 0 /\ height session_unbound = 0.
Proof.
  split; [exact session_unbound_reachable | split; [reflexivity |]].
  apply (reachable_unbound_is_unsized session_unbound
           session_unbound_reachable).
  reflexivity.
Defined.

Lemma render_transform_exact_by_rotation_witness :
  duplicator session_portrait = Some 1%N
  /\ gs_duplicator_get_texture host_portrait (Some 1%N) = Some 2%N
  /\ 0 <= width session_portrait <= 2 ^ 24
  /\ 0 <= height session_portrait <= 2 ^ 24
  /\ rot session_portrait = 90
  /\ height session_portrait = 1920
  /\ exists t,
       trace_of (duplicator_capture_render host_portrait session_portrait)
       = render_calls host_portrait 2%N session_portrait t
           [call_gs_matrix_pop]
       /\ is_transform t (height session_portrait) 0 90.
Proof.
  assert (Hw : 0 <= width session_portrait <= 2 ^ 24) by (cbn; lia).
  assert (Hh : 0 <= height session_portrait <= 2 ^ 24) by (cbn; lia).
  split; [reflexivity | split; [reflexivity |]].
  split; [exact Hw | split; [exact Hh |]].
  split; [reflexivity | split; [reflexivity |]].
  destruct (render_transform_exact_by_rotation host_portrait
              session_portrait 1%N 2%N eq_refl eq_refl Hw Hh)
    as (_ & H90 & _).
  exact (H90 eq_refl).
Defined.

(** Against C6 as stated: a reachable session whose raw height is
    2^24 + 1, under rotation 90, is not translated to (rawHeight, 0): the
    operand passed stands for 2^24. *)
Lemma render_tall_texture_is_rounded :
  reachable session_tall
  /\ duplicator session_tall = Some 1%N
  /\ gs_duplicator_get_texture host_tall (Some 1%N) = Some 2%N
  /\ rot session_tall = 90
  /\ height session_tall = 2 ^ 24 + 1
  /\ filter is_matrix_call
       (trace_of (duplicator_capture_render host_tall session_tall))
     = [call_gs_matrix_push;
        call_gs_matrix_translate3f (Init (S754_finite false 8388608 1))
          (Init F32.zero) (Init F32.zero);
        call_gs_matrix_rotaa4f F32.zero F32.zero F32.one
          (RAD (S754_finite false 11796480 (-17)));
        call_gs_matrix_pop]
  /\ F32.to_Z (S754_finite false 8388608 1) = Some (2 ^ 24)
  /\ ~ (exists t,
          trace_of (duplicator_capture_render host_tall session_tall)
          = render_calls host_tall 2%N session_tall t [call_gs_matrix_pop]
          /\ is_transform t (height session_tall) 0 90).
Proof.
  split; [apply reach_tick, reach_create |].
  split; [reflexivity | split; [reflexivity | split; [reflexivity |]]].
  split; [reflexivity | split; [vm_compute; reflexivity |]].
  split; [reflexivity |].
  intros (t & Htr & fx & fy & fz & ax & ay & az & fa & Ht & Hfx & _).
  subst t. apply (f_equal (filter is_matrix_call)) in Htr.
  vm_compute in Htr. inversion Htr; subst.
  vm_compute in Hfx. discriminate Hfx.
Qed.

Lemma tick_samples_geometry_once_witness :
  obs_source_showing host_portrait (source session_bound) = true
  /\ duplicator session_bound = Some 1%N
  /\ gs_duplicator_update_frame host_portrait 1%N = true
  /\ width session_bound = 0
  /\ length (filter is_monitor_info_query
               (trace_of (duplicator_capture_tick host_portrait F32.one
                            session_bound))) = 1%nat
  /\ width session_portrait = 1080
  /\ rot session_portrait = 90.
Proof.
  split; [reflexivity | split; [reflexivity | split; [reflexivity |]]].
  split; [reflexivity |].
  destruct (tick_samples_geometry_once host_portrait F32.one session_bound
              1%N eq_refl eq_refl eq_refl) as [Hunsized _].
  destruct (Hunsized eq_refl) as (Hq & _ & Hw & _ & _ & _ & Hr & _).
  split; [exact Hq | split; [exact Hw | exact Hr]].
Defined.

Lemma tick_creates_and_samples_at_once_witness :
  reachable session_unbound
  /\ Unbound session_unbound
  /\ obs_source_showing host_landscape (source session_unbound) = true
  /\ F32.ge (F32.add (reset_timeout session_unbound) F32.three)
       RESET_INTERVAL_SEC = true
  /\ gs_duplicator_create host_landscape (monitor session_unbound)
     = Some 1%N
  /\ gs_duplicator_update_frame host_landscape 1%N = true
  /\ Bound_Sized (state_of (duplicator_capture_tick host_landscape F32.three
                              session_unbound))
  /\ width (state_of (duplicator_capture_tick host_landscape F32.three
                        session_unbound)) = 1920.
Proof.
  split; [exact session_unbound_reachable |].
  split; [reflexivity | split; [reflexivity | split; [reflexivity |]]].
  split; [reflexivity | split; [reflexivity |]].
  destruct (tick_creates_and_samples_at_once host_landscape F32.three
              session_unbound 1%N session_unbound_reachable
              eq_refl eq_refl eq_refl eq_refl eq_refl)
    as (_ & _ & _ & Hw & _ & _ & _ & _ & Hsized).
  split; [| exact Hw].
  apply Hsized. cbn. discriminate.
Defined.

Lemma render_identity_only_for_zero_witness :
  duplicator session_skewed = Some 1%N
  /\ gs_duplicator_get_texture host_skewed (Some 1%N) = Some 2%N
  /\ rot session_skewed <> 0
  /\ - 2 ^ 24 <= rot session_skewed <= 2 ^ 24
  /\ rot session_skewed = 45
  /\ exists t,
       trace_of (duplicator_capture_render host_skewed session_skewed)
       = render_calls host_skewed 2%N session_skewed t
           [call_gs_matrix_pop]
       /\ is_rotation t (rot session_skewed).
Proof.
  assert (Hr : rot session_skewed <> 0) by (cbn; discriminate).
  assert (Hb : - 2 ^ 24 <= rot session_skewed <= 2 ^ 24) by (cbn; lia).
  split; [reflexivity | split; [reflexivity | split; [exact Hr |]]].
  split; [exact Hb | split; [reflexivity |]].
  destruct (render_identity_only_for_zero host_skewed session_skewed
              1%N 2%N eq_refl eq_refl) as (_ & _ & Hrot).
  exact (Hrot Hr Hb).
Defined.

(** Against C1 as stated: with a cached rotation of 45 degrees, outside
    0, 90, 180 and 270, the render does not draw under the identity
    transform: it pushes a matrix and rotates by an angle that stands for
    45 degrees, after a translation whose operands were never written. *)
Lemma render_rotation_45_is_not_identity :
  duplicator session_skewed = Some 1%N
  /\ gs_duplicator_get_texture host_skewed (Some 1%N) = Some 2%N
  /\ ~ In (rot session_skewed) [0; 90; 180; 270]
  /\ trace_of (duplicator_capture_render host_skewed session_skewed)
     <> render_calls host_skewed 2%N session_skewed [] []
  /\ filter is_matrix_call
       (trace_of (duplicator_capture_render host_skewed session_skewed))
     = [call_gs_matrix_push;
        call_gs_matrix_translate3f Uninit Uninit (Init F32.zero);
        call_gs_matrix_rotaa4f F32.zero F32.zero F32.one
          (RAD (S754_finite false 11796480 (-18)));
        call_gs_matrix_pop]
  /\ F32.to_Z (S754_finite false 11796480 (-18)) = Some 45.
Proof.
  split; [reflexivity | split; [reflexivity | split; [| split; [| split]]]].
  - cbn. intros [H | [H | [H | [H | []]]]]; discriminate H.
  - intros H. vm_compute in H. discriminate H.
  - vm_compute. reflexivity.
  - reflexivity.
Qed.

(** Against C9 as stated: a visible tick of a Bound-Unsized session whose
    frame update succeeds while the duplicator has no texture yet leaves
    the session Bound-Unsized, not Bound-Sized. *)
Lemma tick_without_frame_stays_unsized :
  Bound_Unsized session_bound
  /\ obs_source_showing host_no_frame (source session_bound) = true
  /\ duplicator session_bound = Some 1%N
  /\ gs_duplicator_update_frame host_no_frame 1%N = true
  /\ ~ Bound_Sized (state_of (duplicator_capture_tick host_no_frame F32.one
                                session_bound))
  /\ Bound_Unsized (state_of (duplicator_capture_tick host_no_frame F32.one
                                session_bound)).
Proof.
  split; [split; [discriminate | reflexivity] |].
  split; [reflexivity | split; [reflexivity | split; [reflexivity |]]].
  split.
  - intros [_ Hw]. apply Hw. reflexivity.
  - split; [discriminate | reflexivity].
Qed.

(** Against C10 as stated: creation and frame update both succeed in the
    tick that reaches 3.0 seconds, but the new duplicator has no texture
    yet, and the session ends the tick Bound-Unsized.  The same happens
    from a session whose timer already stands at 3.0 seconds. *)
Lemma tick_creates_without_frame_stays_unsized :
  reachable session_unbound
  /\ Unbound session_unbound
  /\ obs_source_showing host_no_frame (source session_unbound) = true
  /\ F32.ge (F32.add (reset_timeout session_unbound) F32.three)
       RESET_INTERVAL_SEC = true
  /\ gs_duplicator_create host_no_frame (monitor session_unbound)
     = Some 1%N
  /\ gs_duplicator_update_frame host_no_frame 1%N = true
  /\ ~ Bound_Sized (state_of (duplicator_capture_tick host_no_frame
                                F32.three session_unbound))
  /\ F32.ge (reset_timeout (set_reset_timeout F32.three session_unbound))
       RESET_INTERVAL_SEC = true
  /\ ~ Bound_Sized (state_of (duplicator_capture_tick host_no_frame
                                F32.zero
                                (set_reset_timeout F32.three
                                   session_unbound))).
Proof.
  split; [exact session_unbound_reachable |].
  split; [reflexivity | split; [reflexivity | split; [reflexivity |]]].
  split; [reflexivity | split; [reflexivity |]].
  split; [intros [_ Hw]; apply Hw; reflexivity |].
  split; [reflexivity |].
  intros [_ Hw]; apply Hw; reflexivity.
Qed.

(** * Two whole runs *)

(** Monitor 0 is away for two seconds and back in the third: the third
    tick binds and sizes the session, and the render draws once, without a
    matrix call, the cursor clipped to 1920 x 1080. *)
Example landscape_run :
  let c := state_of (duplicator_capture_tick host_landscape F32.one
             (state_of (duplicator_capture_tick host_no_monitor F32.one
                (state_of (duplicator_capture_tick host_no_monitor F32.one
                   session_unbound))))) in
  effective_dimensions c = (1920, 1080)
  /\ filter is_matrix_call (trace_of (duplicator_capture_render
                                        host_landscape c)) = []
  /\ filter is_cursor_overlay (trace_of (duplicator_capture_render
                                           host_landscape c))
     = [call_cursor_draw 0 0 F32.one F32.one 1920 1080].
Proof. vm_compute. repeat split; reflexivity. Qed.

(** The monitor is turned by 90 degrees, the raw texture is 1080 x 1920:
    the effective size is 1920 x 1080, the draw is translated to (1920, 0)
    and rotated by 90 degrees, and the cursor is clipped to 1920 x 1080. *)
Example portrait_run :
  (width session_portrait, height session_portrait) = (1080, 1920)
  /\ effective_dimensions session_portrait = (1920, 1080)
  /\ filter is_matrix_call (trace_of (duplicator_capture_render
                                        host_portrait session_portrait))
     = rotated (Init (F32.of_Z 1920)) (Init F32.zero) 90
         ++ [call_gs_matrix_pop]
  /\ filter is_cursor_overlay (trace_of (duplicator_capture_render
                                           host_portrait session_portrait))
     = [call_cursor_draw 0 0 F32.one F32.one 1920 1080].
Proof. vm_compute. repeat split; reflexivity. Qed.

(** * Further properties of the callbacks *)

(** Split a tick into its branches: hidden; bound, with the frame update
    failing or succeeding on an unsized or a sized session; unbound and
    waiting; unbound with a creation that fails or succeeds, then the
    same three frame branches. *)
Ltac tick_cases h seconds c :=
  run_M;
  let d := fresh "d" in
  destruct (obs_source_showing h (source c)) eqn:?; cbn;
  [ destruct (duplicator c) as [d |] eqn:?; cbn;
    [ match goal with H : duplicator c = Some _ |- _ => rewrite ?H end; cbn;
      destruct (capture_cursor c) eqn:?; cbn;
      (destruct (gs_duplicator_update_frame h d) eqn:?; cbn;
       [ destruct (width c =? 0) eqn:?; cbn | ])
    | destruct (F32.ge (F32.add (reset_timeout c) seconds)
                  RESET_INTERVAL_SEC) eqn:?; cbn;
      [ destruct (gs_duplicator_create h (monitor c)) as [d |] eqn:?; cbn;
        [ destruct (capture_cursor c) eqn:?; cbn;
          (destruct (gs_duplicator_update_frame h d) eqn:?; cbn;
           [ destruct (width c =? 0) eqn:?; cbn | ])
        | ]
      | match goal with H : duplicator c = None |- _ => rewrite ?H end; cbn ] ]
  | ].

(** ** One duplicator, created and destroyed once *)

Lemma track_app alive evs1 evs2 :
  track alive (evs1 ++ evs2)
  = match track alive evs1 with
    | Some alive' => track alive' evs2
    | None => None
    end.
Proof.
  revert alive. induction evs1 as [| [d | d] evs1 IH]; intros alive; cbn.
  - reflexivity.
  - destruct alive; [reflexivity | apply IH].
  - destruct alive as [d' |]; [| reflexivity].
    destruct (N.eqb d d'); [apply IH | reflexivity].
Qed.

Lemma tick_tracks_duplicator h seconds c :
  track (duplicator c)
    (handle_events h (trace_of (duplicator_capture_tick h seconds c)))
  = Some (duplicator (state_of (duplicator_capture_tick h seconds c))).
Proof.
  tick_cases h seconds c;
    repeat match goal with
           | H : ?l = _ |- context [?l] => rewrite H
           end;
    cbn; rewrite ?N.eqb_refl; try reflexivity; congruence.
Qed.

Lemma update_tracks_duplicator settings h c :
  track (duplicator c)
    (handle_events h (trace_of (update_settings settings h c)))
  = Some (duplicator (state_of (update_settings settings h c))).
Proof.
  rewrite update_settings_eq. unfold trace_of, state_of. cbn.
  destruct (duplicator c) as [d |]; cbn; rewrite ?N.eqb_refl;
    destruct (gs_duplicator_create h _); reflexivity.
Qed.

Lemma render_tracks_duplicator h c :
  track (duplicator c)
    (handle_events h (trace_of (duplicator_capture_render h c)))
  = Some (duplicator (state_of (duplicator_capture_render h c))).
Proof.
  rewrite render_keeps_session.
  assert (Hev : handle_events h (trace_of (duplicator_capture_render h c))
                = []).
  { destruct (duplicator c) as [d |] eqn:Hd;
      [destruct (gs_duplicator_get_texture h (Some d)) as [tex |] eqn:Htex |].
    - rewrite (render_eq h c d tex Hd Htex). unfold trace_of. cbn [snd].
      unfold render_calls, handle_events.
      rewrite !flat_map_app. cbn [flat_map app].
      rewrite app_nil_r.
      induction (gs_effect_loop_passes h) as [| n IH]; [reflexivity |].
      cbn [repeat concat]. rewrite flat_map_app, IH, app_nil_r.
      unfold pass_calls, transform_calls, restore_calls, cursor_draw_calls.
      destruct (rot c =? 0); destruct (capture_cursor c); reflexivity.
    - unfold duplicator_capture_render, bind, get, extern, trace_of.
      rewrite Hd, Htex. reflexivity.
    - unfold duplicator_capture_render, bind, get, trace_of.
      rewrite Hd. reflexivity. }
  rewrite Hev. reflexivity.
Qed.

(** X1. Whatever callback runs on a session (update, tick or render),
    under any answers of the host, the duplicators it creates and destroys
    fit the one the session holds: it never creates one while it holds
    another, it only ever destroys the one it holds, and the one alive
    after the callback is the one the session records. *)
Theorem callback_tracks_duplicator :
  forall (cb : callback) (c : duplicator_capture),
    track (duplicator c)
      (handle_events (callback_host cb) (trace_of (run_callback cb c)))
    = Some (duplicator (state_of (run_callback cb c))).
Proof.
  intros [settings h | h seconds | h] c; cbn [run_callback callback_host].
  - apply update_tracks_duplicator.
  - apply tick_tracks_duplicator.
  - apply render_tracks_duplicator.
Qed.

Lemma run_callbacks_track cbs :
  forall c,
    track (duplicator c) (fst (run_callbacks c cbs))
    = Some (duplicator (snd (run_callbacks c cbs))).
Proof.
  induction cbs as [| cb cbs IH]; intros c; [reflexivity |].
  cbn [run_callbacks].
  specialize (IH (state_of (run_callback cb c))).
  destruct (run_callbacks (state_of (run_callback cb c)) cbs) as [evs c'].
  cbn [fst snd] in *.
  rewrite track_app.
  destruct cb as [settings h | h seconds | h]; cbn [run_callback callback_host].
  - unfold duplicator_capture_update.
    rewrite update_tracks_duplicator. exact IH.
  - rewrite tick_tracks_duplicator. exact IH.
  - rewrite render_tracks_duplicator. exact IH.
Qed.

(** X2. Over a whole life of a session (the create callback, then any
    update, tick and render callbacks under any answers of the host, then
    the destroy callback) every duplicator the host handed out is destroyed
    exactly once, before the next one is created, and none is alive at the
    end. *)
Theorem lifetime_destroys_every_duplicator :
  forall (settings : obs_data) (src : option obs_source) (h : host)
         (cbs : list callback),
    track None (lifetime_handle_events settings src h cbs) = Some None.
Proof.
  intros settings src h cbs. unfold lifetime_handle_events.
  pose proof (run_callbacks_track cbs
                (fst (duplicator_capture_create settings src h))) as Hrun.
  destruct (duplicator_capture_create settings src h) as [c0 tr0] eqn:Hc.
  cbn [fst] in Hrun.
  destruct (run_callbacks c0 cbs) as [evs c] eqn:Hr. cbn [fst snd] in Hrun.
  assert (H0 : track None (handle_events h tr0) = Some (duplicator c0)).
  { unfold duplicator_capture_create in Hc.
    inversion Hc; subst c0 tr0. clear Hc.
    unfold bind, modify. cbn.
    destruct (gs_duplicator_create h _); reflexivity. }
  rewrite track_app, H0. rewrite track_app, Hrun.
  cbn. destruct (duplicator c) as [d |]; cbn; rewrite ?N.eqb_refl; reflexivity.
Qed.

(** ** The graphics context *)

Lemma tick_graphics_run h seconds c :
  graphics_run Before (trace_of (duplicator_capture_tick h seconds c))
  = Some (if obs_source_showing h (source c) then After else Before).
Proof.
  tick_cases h seconds c; reflexivity.
Qed.

(** X3. The update, create and destroy callbacks, and every tick of a
    showing source, enter the graphics context exactly once, make every
    duplication call (create, destroy, frame update, texture, monitor
    info) between that entry and the one exit, and have left the context
    when they return; a tick of a hidden source never enters it and makes
    no duplication call.  This holds on every path, under any answers of
    the host. *)
Theorem callbacks_bracket_graphics :
  (forall settings h c,
      graphics_run Before (trace_of (update_settings settings h c))
      = Some After)
  /\ (forall settings src h,
         graphics_run Before
           (snd (duplicator_capture_create settings src h))
         = Some After)
  /\ (forall h seconds c,
         graphics_run Before
           (trace_of (duplicator_capture_tick h seconds c))
         = Some (if obs_source_showing h (source c) then After
                 else Before))
  /\ (forall c,
         graphics_run Before
           (session_calls (duplicator_capture_destroy c))
         = Some After).
Proof.
  split; [| split; [| split]].
  - intros settings h c. rewrite update_settings_eq. reflexivity.
  - intros settings src h. reflexivity.
  - exact tick_graphics_run.
  - intros c. reflexivity.
Qed.

(** ** The draws of a render *)

Lemma render_trace_cases h c :
  trace_of (duplicator_capture_render h c)
  = match duplicator c with
    | None => []
    | Some d =>
        match gs_duplicator_get_texture h (Some d) with
        | None => [call_gs_duplicator_get_texture (Some d)]
        | Some tex =>
            render_calls h tex c (transform_calls c (rot c))
              (restore_calls (rot c))
        end
    end.
Proof.
  destruct (duplicator c) as [d |] eqn:Hd;
    [destruct (gs_duplicator_get_texture h (Some d)) as [tex |] eqn:Htex |].
  - rewrite (render_eq h c d tex Hd Htex). reflexivity.
  - unfold duplicator_capture_render, bind, get, extern, trace_of.
    rewrite Hd, Htex. reflexivity.
  - unfold duplicator_capture_render, bind, get, trace_of.
    rewrite Hd. reflexivity.
Qed.

(** The calls of one round of the draw loop. *)
Lemma render_calls_rounds h tex c transform restore :
  render_calls h tex c transform restore
  = [call_gs_duplicator_get_texture (duplicator c);
     call_obs_get_default_effect]
      ++ concat (repeat (call_gs_effect_loop "Draw"
                           :: pass_calls tex c transform restore)
                   (gs_effect_loop_passes h))
      ++ [call_gs_effect_loop "Draw"].
Proof. reflexivity. Qed.

Lemma matrix_depth_app n tr1 tr2 :
  matrix_depth n (tr1 ++ tr2)
  = match matrix_depth n tr1 with
    | Some n' => matrix_depth n' tr2
    | None => None
    end.
Proof.
  revert n. induction tr1 as [| e tr1 IH]; intros n; [reflexivity |].
  destruct e; cbn; try apply IH.
  destruct n; [reflexivity | apply IH].
Qed.

Lemma matrix_depth_rounds n round k rest :
  matrix_depth n round = Some n ->
  matrix_depth n (concat (repeat round k) ++ rest) = matrix_depth n rest.
Proof.
  intros Hround. induction k as [| k IH]; [reflexivity |].
  cbn [repeat concat]. rewrite <- app_assoc, matrix_depth_app, Hround.
  exact IH.
Qed.

(** X4. A render leaves the matrix stack as deep as it found it and never
    pops below that depth, for every cached rotation, also one outside 0,
    90, 180 and 270, and for any number of passes. *)
Theorem render_balances_matrix_stack :
  forall (h : host) (c : duplicator_capture) (n : nat),
    matrix_depth n (trace_of (duplicator_capture_render h c)) = Some n.
Proof.
  intros h c n. rewrite render_trace_cases.
  destruct (duplicator c) as [d |]; [| reflexivity].
  destruct (gs_duplicator_get_texture h (Some d)) as [tex |];
    [| reflexivity].
  rewrite render_calls_rounds.
  cbn [app matrix_depth].
  rewrite matrix_depth_rounds; [reflexivity |].
  unfold pass_calls, transform_calls, restore_calls, cursor_draw_calls.
  destruct (rot c =? 0); destruct (capture_cursor c); reflexivity.
Qed.

Lemma draw_policy_app st tr1 tr2 :
  draw_policy st (tr1 ++ tr2)
  = match draw_policy st tr1 with
    | Some st' => draw_policy st' tr2
    | None => None
    end.
Proof.
  revert st. induction tr1 as [| e tr1 IH]; intros st; [reflexivity |].
  destruct e; cbn; try apply IH.
  - destruct (blended_state st); [apply IH | reflexivity].
  - destruct (opaque_state st); [apply IH | reflexivity].
Qed.

Lemma draw_policy_round tex c st :
  draw_policy st
    (call_gs_effect_loop "Draw"
       :: pass_calls tex c (transform_calls c (rot c))
            (restore_calls (rot c)))
  = Some blended.
Proof.
  unfold pass_calls, transform_calls, restore_calls, cursor_draw_calls.
  destruct (rot c =? 0); destruct (capture_cursor c); reflexivity.
Qed.

Lemma draw_policy_rounds tex c k rest st :
  draw_policy st
    (concat (repeat (call_gs_effect_loop "Draw"
                       :: pass_calls tex c (transform_calls c (rot c))
                            (restore_calls (rot c))) k) ++ rest)
  = draw_policy (match k with O => st | S _ => blended end) rest.
Proof.
  revert st. induction k as [| k IH]; intros st; [reflexivity |].
  cbn [repeat concat]. rewrite <- app_assoc, draw_policy_app,
    draw_policy_round, IH.
  destruct k; reflexivity.
Qed.

(** X5. Whatever blending and colour mask the host had set before, every
    pass of a render draws the captured texture with blending off and
    alpha not written, and the cursor with blending on and all four
    channels written; once the texture has been drawn, the render returns
    with blending on and alpha written. *)
Theorem render_draws_opaque_then_blends :
  forall (h : host) (c : duplicator_capture) (st : draw_state),
    exists st' : draw_state,
      draw_policy st (trace_of (duplicator_capture_render h c)) = Some st'
      /\ (existsb is_texture_draw (trace_of (duplicator_capture_render h c))
          = true -> st' = blended).
Proof.
  intros h c st. rewrite render_trace_cases.
  destruct (duplicator c) as [d |];
    [| exists st; split; [reflexivity | discriminate]].
  destruct (gs_duplicator_get_texture h (Some d)) as [tex |];
    [| exists st; split; [reflexivity | discriminate]].
  rewrite render_calls_rounds. cbn [app draw_policy].
  rewrite draw_policy_rounds. cbn [draw_policy].
  destruct (gs_effect_loop_passes h) as [| k].
  - exists st. split; [reflexivity | discriminate].
  - exists blended. split; [reflexivity | reflexivity].
Qed.

Lemma filter_rounds (f : call -> bool) round k :
  length (filter f (concat (repeat round k)))
  = (k * length (filter f round))%nat.
Proof.
  induction k as [| k IH]; [reflexivity |].
  cbn [repeat concat]. rewrite filter_app, length_app, IH. reflexivity.
Qed.

(** X6. A render of an unbound session, or of a session whose duplicator
    has no texture, draws nothing.  Otherwise it draws the texture once per
    pass of the effect, and the cursor once per pass when the cursor is
    captured and never when it is not. *)
Theorem render_draws_once_per_pass :
  forall (h : host) (c : duplicator_capture),
    let tr := trace_of (duplicator_capture_render h c) in
    let passes :=
      match duplicator c with
      | None => O
      | Some d =>
          match gs_duplicator_get_texture h (Some d) with
          | None => O
          | Some _ => gs_effect_loop_passes h
          end
      end in
    length (filter is_texture_draw tr) = passes
    /\ length (filter is_cursor_draw tr)
       = if capture_cursor c then passes else O.
Proof.
  intros h c tr passes. subst tr passes. rewrite render_trace_cases.
  destruct (duplicator c) as [d |].
  - destruct (gs_duplicator_get_texture h (Some d)) as [tex |].
    + rewrite render_calls_rounds. cbn [app filter is_texture_draw
                                           is_cursor_draw].
      rewrite !filter_app, !length_app, !filter_rounds.
      unfold pass_calls, transform_calls, restore_calls, cursor_draw_calls.
      destruct (rot c =? 0); destruct (capture_cursor c); cbn; lia.
    + destruct (capture_cursor c); split; reflexivity.
  - destruct (capture_cursor c); split; reflexivity.
Qed.

Lemma Forall_rounds (P : call -> Prop) round k :
  Forall P round -> Forall P (concat (repeat round k)).
Proof.
  intros Hround. induction k as [| k IH]; [constructor |].
  cbn [repeat concat]. apply Forall_app. split; assumption.
Qed.

Lemma to_long_in_range v :
  LONG_MIN <= v <= LONG_MAX -> to_long v = v.
Proof.
  unfold to_long, LONG_MIN, LONG_MAX, LONG_BITS.
  change (2 ^ (32 - 1)) with 2147483648. change (2 ^ 32) with 4294967296.
  intros Hv. rewrite Z.mod_small by lia. lia.
Qed.

(** X7. Every cursor call of a render is [cursor_draw] with the negated
    origin as offset, scale 1, and as clip the width and height that the
    size callbacks report for the session, each converted to [long] (32
    bits on the target).  For an origin above [LONG_MIN] and sizes up to
    [LONG_MAX] these are exactly (-x, -y) and the reported size; an origin
    coordinate equal to [LONG_MIN] is passed as [LONG_MIN], and a size of
    2^31 or more wraps around, 2^31 itself to [LONG_MIN]. *)
Theorem render_clips_cursor_to_reported_size :
  forall (h : host) (c : duplicator_capture),
    Forall
      (fun e =>
         is_cursor_overlay e = true ->
         e = call_cursor_draw (long_neg (x c)) (long_neg (y c))
               F32.one F32.one
               (to_long (duplicator_capture_width c))
               (to_long (duplicator_capture_height c)))
      (trace_of (duplicator_capture_render h c))
    /\ (LONG_MIN < x c <= LONG_MAX -> long_neg (x c) = - x c)
    /\ (LONG_MIN < y c <= LONG_MAX -> long_neg (y c) = - y c)
    /\ (0 <= duplicator_capture_width c <= LONG_MAX ->
        to_long (duplicator_capture_width c) = duplicator_capture_width c)
    /\ (0 <= duplicator_capture_height c <= LONG_MAX ->
        to_long (duplicator_capture_height c)
        = duplicator_capture_height c)
    /\ (x c = LONG_MIN -> long_neg (x c) = LONG_MIN)
    /\ (y c = LONG_MIN -> long_neg (y c) = LONG_MIN)
    /\ (duplicator_capture_width c = 2 ^ 31 ->
        to_long (duplicator_capture_width c) = LONG_MIN).
Proof.
  intros h c. split.
  - rewrite render_trace_cases.
    destruct (duplicator c) as [d |]; [| constructor].
    destruct (gs_duplicator_get_texture h (Some d)) as [tex |];
      [| repeat constructor; discriminate].
    rewrite render_calls_rounds.
    repeat (apply Forall_cons; [discriminate |]).
    apply Forall_app. split; [| repeat constructor; discriminate].
    apply Forall_rounds.
    unfold pass_calls, transform_calls, restore_calls, cursor_draw_calls.
    destruct (rot c =? 0); destruct (capture_cursor c); cbn;
      repeat (apply Forall_cons;
              [try discriminate; intros _; reflexivity |]);
      constructor.
  - unfold long_neg.
    repeat split; intros Hr;
      try (apply to_long_in_range; unfold LONG_MIN, LONG_MAX, LONG_BITS in *;
           change (2 ^ (32 - 1)) with 2147483648 in *; lia);
      rewrite Hr; reflexivity.
Qed.

(** ** The cursor switch *)

(** X8. While the session's [capture_cursor] is off, neither a tick nor a
    render makes any call to the cursor overlay, and the tick leaves the
    cursor data untouched. *)
Theorem cursor_off_means_no_cursor_calls :
  forall (h : host) (seconds : float32) (c : duplicator_capture),
    capture_cursor c = false ->
    existsb is_cursor_overlay
      (trace_of (duplicator_capture_tick h seconds c)) = false
    /\ cursor (state_of (duplicator_capture_tick h seconds c)) = cursor c
    /\ existsb is_cursor_overlay
         (trace_of (duplicator_capture_render h c)) = false.
Proof.
  intros h seconds c Hc. split; [| split].
  - tick_cases h seconds c; try reflexivity; congruence.
  - tick_cases h seconds c; try reflexivity; congruence.
  - rewrite render_trace_cases.
    destruct (duplicator c) as [d |]; [| reflexivity].
    destruct (gs_duplicator_get_texture h (Some d)) as [tex |];
      [| reflexivity].
    rewrite render_calls_rounds. cbn [app existsb is_cursor_overlay orb].
    rewrite existsb_app. cbn [existsb is_cursor_overlay orb].
    rewrite orb_false_r.
    induction (gs_effect_loop_passes h) as [| k IH]; [reflexivity |].
    cbn [repeat concat]. rewrite existsb_app, IH, orb_false_r.
    unfold pass_calls, transform_calls, restore_calls, cursor_draw_calls.
    rewrite Hc. destruct (rot c =? 0); reflexivity.
Qed.

(** ** What a tick may touch *)

Lemma tick_keeps_settings h seconds c :
  source (state_of (duplicator_capture_tick h seconds c)) = source c
  /\ monitor (state_of (duplicator_capture_tick h seconds c)) = monitor c
  /\ capture_cursor (state_of (duplicator_capture_tick h seconds c))
     = capture_cursor c.
Proof.
  tick_cases h seconds c; repeat split; try reflexivity; congruence.
Qed.

(** X9. Over any run of tick and render callbacks, under any answers of
    the host, the session keeps its source, its monitor index and its
    cursor switch: only the update callback changes what is captured. *)
Theorem settings_change_only_by_update :
  forall (cbs : list callback) (c : duplicator_capture),
    existsb is_update cbs = false ->
    let c' := snd (run_callbacks c cbs) in
    source c' = source c
    /\ monitor c' = monitor c
    /\ capture_cursor c' = capture_cursor c.
Proof.
  induction cbs as [| cb cbs IH]; intros c Hno; [repeat split |].
  cbn [existsb] in Hno. apply orb_false_iff in Hno as [Hcb Hrest].
  specialize (IH (state_of (run_callback cb c)) Hrest).
  cbn [run_callbacks].
  destruct (run_callbacks (state_of (run_callback cb c)) cbs) as [evs c'].
  cbn [snd] in *.
  destruct cb as [settings h | h seconds | h]; [discriminate | |];
    cbn [run_callback] in IH.
  - destruct (tick_keeps_settings h seconds c) as (Hs & Hm & Hc).
    rewrite Hs, Hm, Hc in IH. exact IH.
  - rewrite render_keeps_session in IH. exact IH.
Qed.

(** X10. A tick asks the host for a duplicator only when the source is
    showing, the session holds none, and the retry timer with this tick's
    seconds added has reached 3.0 seconds; it asks for the session's own
    monitor, and at most once. *)
Theorem tick_creates_only_when_due :
  forall (h : host) (seconds : float32) (c : duplicator_capture) (m : Z),
    In (call_gs_duplicator_create m)
      (trace_of (duplicator_capture_tick h seconds c)) ->
    obs_source_showing h (source c) = true
    /\ duplicator c = None
    /\ F32.ge (F32.add (reset_timeout c) seconds) RESET_INTERVAL_SEC = true
    /\ m = monitor c
    /\ length (filter is_create
                 (trace_of (duplicator_capture_tick h seconds c))) = 1%nat.
Proof.
  intros h seconds c m.
  tick_cases h seconds c; intros Hin;
    repeat (destruct Hin as [Hin | Hin]; try discriminate Hin);
    try contradiction;
    inversion Hin; subst; repeat split; reflexivity.
Qed.

(** ** More invariants of the sessions the host can hold *)

Lemma timer_zero_below_interval :
  F32.ge F32.zero RESET_INTERVAL_SEC = false.
Proof. reflexivity. Qed.

Lemma tick_keeps_session_invariant h seconds c :
  session_invariant c ->
  session_invariant (state_of (duplicator_capture_tick h seconds c)).
Proof.
  unfold session_invariant. intros (Hgeo & Hzero & Hlow).
  tick_cases h seconds c; repeat split; intros;
    try reflexivity; try discriminate; try congruence;
    try (apply Hgeo; congruence); try (apply Hzero; congruence);
    try exact Hlow.
Qed.

Lemma reachable_session_invariant c : reachable c -> session_invariant c.
Proof.
  intros Hr.
  induction Hr as [settings src h | c settings h Hr IH
                   | c h seconds Hr IH | c h Hr IH].
  - unfold session_invariant. cbn. repeat split; intros; reflexivity.
  - unfold duplicator_capture_update. rewrite update_settings_eq.
    unfold session_invariant. cbn. repeat split; intros; reflexivity.
  - apply tick_keeps_session_invariant, IH.
  - rewrite render_keeps_session. exact IH.
Qed.

(** X11. In every session the host can hold, a null duplicator implies
    that the cached origin and rotation are zero as well: an unbound
    session carries no geometry at all. *)
Theorem reachable_unbound_has_no_geometry :
  forall c : duplicator_capture,
    reachable c ->
    duplicator c = None ->
    x c = 0 /\ y c = 0 /\ rot c = 0.
Proof.
  intros c Hr Hd. destruct (reachable_session_invariant c Hr) as (Hgeo & _).
  exact (Hgeo Hd).
Qed.

Lemma not_at_interval_cases t :
  F32.ge t RESET_INTERVAL_SEC = false ->
  t = S754_nan \/ F32.lt t RESET_INTERVAL_SEC = true.
Proof.
  unfold F32.ge, F32.lt, SFleb, SFltb, RESET_INTERVAL_SEC, F32.three.
  destruct t as [s | s | | s m e]; cbn [SFcompare].
  - intros _. right. reflexivity.
  - destruct s; [intros _; right; reflexivity | discriminate].
  - intros _. left. reflexivity.
  - destruct s; [intros _; right; reflexivity |].
    rewrite (Z.compare_antisym (-22) e).
    destruct (-22 ?= e) eqn:He; cbn [CompOpp].
    + pose proof (Pos.compare_cont_antisym 12582912 m Eq) as Ha.
      cbn [CompOpp] in Ha. rewrite <- Ha.
      destruct (Pos.compare_cont Eq 12582912 m); cbn [CompOpp];
        [discriminate | discriminate | intros _; right; reflexivity].
    + discriminate.
    + intros _. right. reflexivity.
Qed.

(** X12. In every session the host can hold, when a callback returns the
    retry timer is either not a number or strictly below 3.0 seconds, so
    the test [reset_timeout >= 3.0f] is false and no attempt is left
    pending; and the timer is exactly zero while a duplicator is bound:
    it only runs while the session is unbound. *)
Theorem reachable_timer_below_interval :
  forall c : duplicator_capture,
    reachable c ->
    (reset_timeout c = S754_nan
     \/ F32.lt (reset_timeout c) RESET_INTERVAL_SEC = true)
    /\ F32.ge (reset_timeout c) RESET_INTERVAL_SEC = false
    /\ (duplicator c <> None -> reset_timeout c = F32.zero).
Proof.
  intros c Hr.
  destruct (reachable_session_invariant c Hr) as (_ & Hzero & Hlow).
  split; [apply not_at_interval_cases; exact Hlow |].
  split; assumption.
Qed.

(** ** Size under any rotation *)

(** X13. For every cached rotation, negative ones and ones outside 0, 90,
    180 and 270 included, the size callbacks return the raw pair when the
    rotation is a multiple of 180 and the swapped pair otherwise; swapping
    twice under the same rotation gives the raw pair back. *)
Theorem effective_dimensions_any_rotation :
  forall c : duplicator_capture,
    ((180 | rot c) -> effective_dimensions c = (width c, height c))
    /\ (~ (180 | rot c) -> effective_dimensions c = (height c, width c))
    /\ effective_dimensions (with_effective_dimensions c)
       = (width c, height c).
Proof.
  intros c. rewrite !effective_dimensions_cases.
  unfold with_effective_dimensions, duplicator_capture_width,
    duplicator_capture_height, c_rem.
  cbn [rot width height set_width set_height].
  pose proof (Z.rem_divide (rot c) 180 ltac:(lia)) as Hdiv.
  destruct (Z.rem (rot c) 180 =? 0) eqn:Hrem.
  - apply Z.eqb_eq in Hrem. repeat split; intros; try reflexivity.
    exfalso. apply H, Hdiv, Hrem.
  - apply Z.eqb_neq in Hrem. repeat split; intros; try reflexivity.
    exfalso. apply Hrem, Hdiv, H.
Qed.

(** ** The property sheet *)








(** ** Updates and ticks together *)

Lemma update_settings_zeroes_fields settings h c :
  let c1 := state_of (update_settings settings h c) in
  width c1 = 0
  /\ reset_timeout c1 = F32.zero
  /\ duplicator c1 = gs_duplicator_create h (monitor c1)
  /\ source c1 = source c.
Proof.
  rewrite update_settings_eq. cbn. repeat split.
Qed.

(** X15. The first visible tick after an update: when the update bound a
    duplicator [d] and the frame update succeeds, the tick samples the
    geometry at once, with no creation attempt; when the update could not
    bind one and the tick's seconds are below 3.0, the tick makes no
    attempt and the timer holds just these seconds. *)
Theorem first_tick_after_update :
  forall (settings : obs_data) (h0 h : host) (seconds : float32)
         (c : duplicator_capture),
    let c1 := state_of (update_settings settings h0 c) in
    let r := duplicator_capture_tick h seconds c1 in
    obs_source_showing h (source c) = true ->
    (forall d,
        gs_duplicator_create h0 (monitor c1) = Some d ->
        gs_duplicator_update_frame h d = true ->
        existsb is_create (trace_of r) = false
        /\ duplicator (state_of r) = Some d
        /\ width (state_of r) = gs_texture_get_width h (reported_texture h d)
        /\ height (state_of r)
           = gs_texture_get_height h (reported_texture h d)
        /\ rot (state_of r) = rotation_degrees (reported_info h c1))
    /\ (gs_duplicator_create h0 (monitor c1) = None ->
        F32.ge (F32.add F32.zero seconds) RESET_INTERVAL_SEC = false ->
        existsb is_create (trace_of r) = false
        /\ duplicator (state_of r) = None
        /\ reset_timeout (state_of r) = F32.add F32.zero seconds).
Proof.
  intros settings h0 h seconds c c1 r Hs.
  destruct (update_settings_zeroes_fields settings h0 c)
    as (Hw & Ht & Hd & Hsrc).
  fold c1 in Hw, Ht, Hd, Hsrc.
  assert (Hs1 : obs_source_showing h (source c1) = true)
    by (rewrite Hsrc; exact Hs).
  subst r. clearbody c1. split.
  - intros d Hcr Hf. rewrite Hcr in Hd.
    rewrite (tick_bound_success_unsized h seconds c1 d Hs1 Hd Hf Hw).
    destruct (sample_cursor_fields h c1)
      as (Sd & Sm & Sw & Sh & Sx & Sy & Sr & St).
    unfold state_of, trace_of, reported_texture, reported_info.
    cbn [fst snd]. unfold refresh_geometry, geometry_calls.
    rewrite Sd, Sm, Hd. cbn [app existsb is_create orb].
    rewrite existsb_app. cbn [existsb is_create orb].
    unfold cursor_calls.
    destruct (capture_cursor c1); repeat split; cbn; congruence.
  - intros Hcr Hg. rewrite Hcr in Hd.
    assert (Hg1 : F32.ge (F32.add (reset_timeout c1) seconds)
                    RESET_INTERVAL_SEC = false)
      by (rewrite Ht; exact Hg).
    rewrite (tick_unbound_wait h seconds c1 Hs1 Hd Hg1).
    unfold state_of, trace_of. cbn. rewrite Ht. repeat split. exact Hd.
Qed.

(** X16. Recovery after a lost frame.  A bound session whose frame update
    fails is unbound by that tick; whatever the host would answer, the next
    two visible ticks of 1.0 second make no creation attempt; and when the
    monitor is back at the third, that tick creates the duplicator, takes a
    frame and samples the geometry, all at once. *)
Theorem recovery_after_frame_failure :
  forall (hf h1 h2 h3 : host) (seconds : float32) (c : duplicator_capture)
         (d0 d : gs_duplicator),
    duplicator c = Some d0 ->
    obs_source_showing hf (source c) = true ->
    gs_duplicator_update_frame hf d0 = false ->
    obs_source_showing h1 (source c) = true ->
    obs_source_showing h2 (source c) = true ->
    obs_source_showing h3 (source c) = true ->
    gs_duplicator_create h3 (monitor c) = Some d ->
    gs_duplicator_update_frame h3 d = true ->
    let r0 := duplicator_capture_tick hf seconds c in
    let r1 := duplicator_capture_tick h1 F32.one (state_of r0) in
    let r2 := duplicator_capture_tick h2 F32.one (state_of r1) in
    let r3 := duplicator_capture_tick h3 F32.one (state_of r2) in
    existsb is_create (trace_of r1) = false
    /\ existsb is_create (trace_of r2) = false
    /\ duplicator (state_of r2) = None
    /\ existsb is_create (trace_of r3) = true
    /\ duplicator (state_of r3) = Some d
    /\ width (state_of r3) = gs_texture_get_width h3 (reported_texture h3 d)
    /\ height (state_of r3)
       = gs_texture_get_height h3 (reported_texture h3 d)
    /\ rot (state_of r3) = rotation_degrees (reported_info h3 c).
Proof.
  intros hf h1 h2 h3 seconds c d0 d Hd0 Hsf Hff Hs1 Hs2 Hs3 Hcr Hf
         r0 r1 r2 r3.
  subst r3 r2 r1 r0.
  rewrite (tick_bound_failure hf seconds c d0 Hsf Hd0 Hff).
  unfold state_of, trace_of. cbn [fst snd].
  destruct (sample_cursor_fields hf c)
    as (Sd & Sm & Sw & Sh & Sx & Sy & Sr & St).
  assert (Hsrc : source (sample_cursor hf c) = source c)
    by (unfold sample_cursor; destruct (capture_cursor c); reflexivity).
  set (c0 := cold_restart (sample_cursor hf c)).
  assert (F0 : source c0 = source c /\ monitor c0 = monitor c
               /\ duplicator c0 = None /\ width c0 = 0
               /\ reset_timeout c0 = F32.zero).
  { subst c0. unfold cold_restart. cbn. rewrite Hsrc, Sm. repeat split. }
  clearbody c0. destruct F0 as (E0s & E0m & E0d & E0w & E0t).
  assert (W1 : duplicator_capture_tick h1 F32.one c0
               = (tt, set_reset_timeout F32.one c0,
                  [call_obs_source_showing (source c0);
                   call_obs_enter_graphics; call_obs_leave_graphics])).
  { rewrite (tick_unbound_wait h1 F32.one c0);
      rewrite ?E0s, ?E0t; auto. }
  rewrite W1. cbn [fst snd].
  set (c1 := set_reset_timeout F32.one c0).
  assert (F1 : source c1 = source c /\ monitor c1 = monitor c
               /\ duplicator c1 = None /\ width c1 = 0
               /\ reset_timeout c1 = F32.one).
  { subst c1. cbn. repeat split; assumption. }
  clearbody c1. destruct F1 as (E1s & E1m & E1d & E1w & E1t).
  assert (W2 : duplicator_capture_tick h2 F32.one c1
               = (tt, set_reset_timeout (F32.add F32.one F32.one) c1,
                  [call_obs_source_showing (source c1);
                   call_obs_enter_graphics; call_obs_leave_graphics])).
  { rewrite (tick_unbound_wait h2 F32.one c1);
      rewrite ?E1s, ?E1t; auto. }
  rewrite W2. cbn [fst snd].
  set (c2 := set_reset_timeout (F32.add F32.one F32.one) c1).
  assert (F2 : source c2 = source c /\ monitor c2 = monitor c
               /\ duplicator c2 = None /\ width c2 = 0
               /\ reset_timeout c2 = F32.add F32.one F32.one).
  { subst c2. cbn. repeat split; assumption. }
  clearbody c2. destruct F2 as (E2s & E2m & E2d & E2w & E2t).
  rewrite (tick_unbound_create_success h3 F32.one c2 d);
    rewrite ?E2s, ?E2m, ?E2t; auto.
  destruct (sample_cursor_fields h3 (after_create (Some d) c2))
    as (Td & Tm & Tw & Th & Tx & Ty & Tr & Tt).
  unfold reported_texture, reported_info.
  cbn [fst snd]. unfold refresh_geometry.
  rewrite Td, Tm. cbn. rewrite E2m.
  repeat split; try reflexivity; assumption.
Qed.

(** ** Exact translations *)

(** X17. For raw sizes up to 2^24 the translation of a rotated draw is
    exact: the operands passed for rotations 90, 180 and 270 stand for
    (height, 0), (width, height) and (0, width).  The bound is sharp: the
    size 2^24 + 1 is passed as 2^24. *)
Theorem render_translation_is_exact :
  forall c : duplicator_capture,
    0 <= width c <= 2 ^ 24 ->
    0 <= height c <= 2 ^ 24 ->
    (local_to_Z (fst (render_translation c 90)),
     local_to_Z (snd (render_translation c 90)))
    = (Some (height c), Some 0)
    /\ (local_to_Z (fst (render_translation c 180)),
        local_to_Z (snd (render_translation c 180)))
       = (Some (width c), Some (height c))
    /\ (local_to_Z (fst (render_translation c 270)),
        local_to_Z (snd (render_translation c 270)))
       = (Some 0, Some (width c))
    /\ local_to_Z (fst (render_translation (set_height (2 ^ 24 + 1) c) 90))
       = Some (2 ^ 24).
Proof.
  intros c Hw Hh. unfold render_translation.
  cbn [Z.eqb Pos.eqb fst snd local_to_Z].
  rewrite (of_Z_exact (width c) Hw), (of_Z_exact (height c) Hh).
  repeat split.
Qed.

(** ** A timer that is not a number *)

Lemma add_nan_l s : F32.add S754_nan s = S754_nan.
Proof. reflexivity. Qed.

Lemma add_nan_r s : F32.add s S754_nan = S754_nan.
Proof. destruct s; reflexivity. Qed.

Lemma nan_below_interval : F32.ge S754_nan RESET_INTERVAL_SEC = false.
Proof. reflexivity. Qed.

Lemma tick_nan_timer h seconds c :
  duplicator c = None ->
  reset_timeout c = S754_nan ->
  existsb is_create (trace_of (duplicator_capture_tick h seconds c)) = false
  /\ duplicator (state_of (duplicator_capture_tick h seconds c)) = None
  /\ reset_timeout (state_of (duplicator_capture_tick h seconds c))
     = S754_nan.
Proof.
  intros Hd Ht.
  destruct (obs_source_showing h (source c)) eqn:Hs.
  - rewrite (tick_unbound_wait h seconds c Hs Hd);
      rewrite Ht, add_nan_l; [| reflexivity].
    repeat split. exact Hd.
  - rewrite (tick_hidden h seconds c Hs). repeat split; assumption.
Qed.

(** X18. A tick length that is not a number poisons the retry timer.  A
    visible tick of an unbound session with NaN seconds leaves the timer
    NaN; from then on no tick, whatever its length and whatever the host
    answers, makes a creation attempt, and the session stays unbound with
    a NaN timer. *)
Theorem nan_timer_never_retries :
  forall (c : duplicator_capture) (h0 : host)
         (inputs : list (host * float32)),
    duplicator c = None ->
    obs_source_showing h0 (source c) = true ->
    let c0 := state_of (duplicator_capture_tick h0 S754_nan c) in
    reset_timeout c0 = S754_nan
    /\ forall (k : nat) (tr : list call) (c' : duplicator_capture),
        nth_error (run_ticks c0 inputs) k = Some (tr, c') ->
        existsb is_create tr = false
        /\ duplicator c' = None
        /\ reset_timeout c' = S754_nan.
Proof.
  intros c h0 inputs Hd Hs c0.
  assert (H0 : duplicator c0 = None /\ reset_timeout c0 = S754_nan).
  { subst c0. rewrite (tick_unbound_wait h0 S754_nan c Hs Hd);
      rewrite add_nan_r; [| reflexivity].
    split; [exact Hd | reflexivity]. }
  clearbody c0. destruct H0 as [Hd0 Ht0]. split; [exact Ht0 |].
  revert c0 Hd0 Ht0.
  induction inputs as [| [h seconds] inputs IH]; intros c0 Hd0 Ht0 k tr c' Hk.
  - destruct k; discriminate.
  - destruct (tick_nan_timer h seconds c0 Hd0 Ht0) as (Hcr & Hd1 & Ht1).
    cbn [run_ticks] in Hk. destruct k as [| k]; cbn [nth_error] in Hk.
    + inversion Hk; subst. repeat split; assumption.
    + exact (IH _ Hd1 Ht1 k tr c' Hk).
Qed.

(** * Instances of the further properties *)

Lemma session_portrait_reachable : reachable session_portrait.
Proof. apply reach_tick, reach_create. Defined.

Lemma cursor_off_means_no_cursor_calls_witness :
  capture_cursor session_no_cursor = false
  /\ duplicator session_no_cursor = Some 1%N
  /\ existsb is_cursor_overlay
       (trace_of (duplicator_capture_tick host_landscape F32.one
                    session_no_cursor)) = false.
Proof.
  split; [reflexivity | split; [reflexivity |]].
  apply (cursor_off_means_no_cursor_calls host_landscape F32.one
           session_no_cursor eq_refl).
Defined.

Lemma settings_change_only_by_update_witness :
  existsb is_update [cb_tick host_portrait F32.three;
                     cb_render host_portrait;
                     cb_tick host_device_lost F32.one] = false
  /\ monitor (snd (run_callbacks session_unbound
                     [cb_tick host_portrait F32.three;
                      cb_render host_portrait;
                      cb_tick host_device_lost F32.one]))
     = monitor session_unbound.
Proof.
  split; [reflexivity |].
  apply (settings_change_only_by_update
           [cb_tick host_portrait F32.three; cb_render host_portrait;
            cb_tick host_device_lost F32.one] session_unbound eq_refl).
Defined.

Lemma tick_creates_only_when_due_witness :
  In (call_gs_duplicator_create 0)
    (trace_of (duplicator_capture_tick host_landscape F32.three
                 session_unbound))
  /\ duplicator session_unbound = None
  /\ F32.ge (F32.add (reset_timeout session_unbound) F32.three)
       RESET_INTERVAL_SEC = true.
Proof.
  assert (Hin : In (call_gs_duplicator_create 0)
                  (trace_of (duplicator_capture_tick host_landscape
                               F32.three session_unbound)))
    by (right; right; left; reflexivity).
  split; [exact Hin |].
  destruct (tick_creates_only_when_due host_landscape F32.three
              session_unbound 0 Hin) as (_ & Hd & Hg & _).
  split; [exact Hd | exact Hg].
Defined.

Lemma reachable_unbound_has_no_geometry_witness :
  reachable session_unbound
  /\ duplicator session_unbound = None
  /\ x session_unbound = 0 /\ y session_unbound = 0
  /\ rot session_unbound = 0.
Proof.
  split; [exact session_unbound_reachable | split; [reflexivity |]].
  apply (reachable_unbound_has_no_geometry session_unbound
           session_unbound_reachable eq_refl).
Defined.

Lemma reachable_timer_below_interval_witness :
  reachable session_portrait
  /\ F32.lt (reset_timeout session_portrait) RESET_INTERVAL_SEC = true
  /\ reset_timeout session_portrait = F32.zero.
Proof.
  split; [exact session_portrait_reachable |].
  destruct (reachable_timer_below_interval session_portrait
              session_portrait_reachable) as ([Hnan | Hlt] & _ & Hzero).
  - discriminate Hnan.
  - split; [exact Hlt | apply Hzero; discriminate].
Defined.


Lemma first_tick_after_update_witness :
  obs_source_showing host_landscape (source session_unbound) = true
  /\ gs_duplicator_create host_landscape
       (monitor (state_of (update_settings settings_default host_landscape
                             session_unbound))) = Some 1%N
  /\ gs_duplicator_update_frame host_landscape 1%N = true
  /\ width (state_of
              (duplicator_capture_tick host_landscape F32.one
                 (state_of (update_settings settings_default host_landscape
                              session_unbound)))) = 1920.
Proof.
  split; [reflexivity | split; [reflexivity | split; [reflexivity |]]].
  destruct (first_tick_after_update settings_default host_landscape
              host_landscape F32.one session_unbound eq_refl)
    as [Hbound _].
  destruct (Hbound 1%N eq_refl eq_refl) as (_ & _ & Hw & _).
  exact Hw.
Defined.

Lemma recovery_after_frame_failure_witness :
  duplicator session_portrait = Some 1%N
  /\ obs_source_showing host_device_lost (source session_portrait) = true
  /\ gs_duplicator_update_frame host_device_lost 1%N = false
  /\ obs_source_showing host_no_monitor (source session_portrait) = true
  /\ obs_source_showing host_landscape (source session_portrait) = true
  /\ gs_duplicator_create host_landscape (monitor session_portrait)
     = Some 1%N
  /\ gs_duplicator_update_frame host_landscape 1%N = true
  /\ width
       (state_of
          (duplicator_capture_tick host_landscape F32.one
             (state_of
                (duplicator_capture_tick host_no_monitor F32.one
                   (state_of
                      (duplicator_capture_tick host_no_monitor F32.one
                         (state_of
                            (duplicator_capture_tick host_device_lost
                               F32.one session_portrait))))))))
     = 1920.
Proof.
  split; [reflexivity | split; [reflexivity | split; [reflexivity |]]].
  split; [reflexivity | split; [reflexivity | split; [reflexivity |]]].
  split; [reflexivity |].
  destruct (recovery_after_frame_failure host_device_lost host_no_monitor
              host_no_monitor host_landscape F32.one session_portrait
              1%N 1%N eq_refl eq_refl eq_refl eq_refl eq_refl eq_refl
              eq_refl eq_refl)
    as (_ & _ & _ & _ & _ & Hw & _).
  exact Hw.
Defined.

Lemma render_translation_is_exact_witness :
  0 <= width session_portrait <= 2 ^ 24
  /\ 0 <= height session_portrait <= 2 ^ 24
  /\ (local_to_Z (fst (render_translation session_portrait 90)),
      local_to_Z (snd (render_translation session_portrait 90)))
     = (Some 1920, Some 0).
Proof.
  assert (Hw : 0 <= width session_portrait <= 2 ^ 24)
    by (cbn; lia).
  assert (Hh : 0 <= height session_portrait <= 2 ^ 24)
    by (cbn; lia).
  split; [exact Hw | split; [exact Hh |]].
  destruct (render_translation_is_exact session_portrait Hw Hh)
    as (H90 & _).
  exact H90.
Defined.

Lemma nan_timer_never_retries_witness :
  duplicator session_unbound = None
  /\ obs_source_showing host_no_monitor (source session_unbound) = true
  /\ reset_timeout (state_of (duplicator_capture_tick host_no_monitor
                                S754_nan session_unbound)) = S754_nan
  /\ forall k tr c',
       nth_error
         (run_ticks (state_of (duplicator_capture_tick host_no_monitor
                                 S754_nan session_unbound))
            [(host_landscape, F32.three); (host_landscape, F32.three)]) k
       = Some (tr, c') ->
       existsb is_create tr = false
       /\ duplicator c' = None
       /\ reset_timeout c' = S754_nan.
Proof.
  split; [reflexivity | split; [reflexivity |]].
  apply (nan_timer_never_retries session_unbound host_no_monitor
           [(host_landscape, F32.three); (host_landscape, F32.three)]
           eq_refl eq_refl).
Defined.
